(** * generate_modern_walk: synthetic SNMP walk files

    A shallow embedding of [scripts/generate_modern_walk.py] and the
    properties its specification states about it.

    Python values are modelled as follows:
    - [str] as [string] (a sequence of bytes; every literal of the script
      except one check mark is ASCII);
    - [int] as [Z] (unbounded, as in Python);
    - a [list] as [list], indexed through [list_getitem], which follows
      Python for negative and out-of-range indices;
    - the device descriptors, dicts with the same six keys throughout the
      catalog, as the record [DeviceInfo];
    - [DEVICE_TEMPLATES], a dict whose insertion order is observable through
      [keys()], as an association list;
    - exceptions as the [Raise] case of [result];
    - [print], [open]/[write] and [datetime.now()] through the state [World]:
      the clock reading and the paths that can be opened are inputs of a
      run, the text printed and the files written its outputs.

    [parser.parse_args()] is not modelled: [main] starts from the parsed
    options. *)

From Stdlib Require Import ZArith List String Ascii Bool Lia.
From Stdlib Require Import DecimalString DecimalPos DecimalZ.
From Stdlib Require Import Sorted Permutation.
Import ListNotations.

Open Scope string_scope.
Open Scope Z_scope.

(** ** Python primitives *)

Module Py.

(** [str(z)] for an [int], as an f-string field formats it. *)
Definition str_int (z : Z) : string := NilZero.string_of_int (Z.to_int z).

(** [str(b)] for a [bool]. *)
Definition str_bool (b : bool) : string := if b then "True" else "False".

Inductive PyError : Type :=
| KeyError (key : string)
| IndexError
| OSError.

Inductive result (A : Type) : Type :=
| Ok (a : A)
| Raise (e : PyError).

Arguments Ok {A} a.
Arguments Raise {A} e.

Definition rbind {A B} (r : result A) (k : A -> result B) : result B :=
  match r with
  | Ok a => k a
  | Raise e => Raise e
  end.

(** [len(l)] *)
Definition len {A} (l : list A) : Z := Z.of_nat (List.length l).

(** [l[i]]: a negative index counts from the end, an index out of range
    raises [IndexError]. *)
Definition list_getitem {A} (l : list A) (i : Z) : result A :=
  let j := if i <? 0 then i + len l else i in
  if (j <? 0) || (len l <=? j) then Raise IndexError
  else match nth_error l (Z.to_nat j) with
       | Some x => Ok x
       | None => Raise IndexError
       end.

(** [range(a, b)] *)
Definition range (a b : Z) : list Z :=
  map (fun k => a + Z.of_nat k) (seq 0 (Z.to_nat (b - a))).

(** A [for] loop whose body updates the local [s] and may raise. *)
Fixpoint for_each {A S} (xs : list A) (body : A -> S -> result S) (s : S)
  : result S :=
  match xs with
  | [] => Ok s
  | x :: xs' => rbind (body x s) (for_each xs' body)
  end.

(** [sep.join(ls)] *)
Definition join (sep : string) (ls : list string) : string :=
  String.concat sep ls.

(** [s.startswith(p)] *)
Definition startswith (s p : string) : bool := String.prefix p s.

(** A dict in insertion order. *)
Definition dict (V : Type) : Type := list (string * V).

Fixpoint dict_get {V} (d : dict V) (k : string) : option V :=
  match d with
  | [] => None
  | (k', v) :: d' => if String.eqb k k' then Some v else dict_get d' k
  end.

(** [k in d] *)
Definition dict_contains {V} (d : dict V) (k : string) : bool :=
  match dict_get d k with Some _ => true | None => false end.

(** [d[k]] *)
Definition dict_getitem {V} (d : dict V) (k : string) : result V :=
  match dict_get d k with
  | Some v => Ok v
  | None => Raise (KeyError k)
  end.

(** [d.keys()] *)
Definition keys {V} (d : dict V) : list string := map fst d.

(** ASCII letters, the cased characters of the script's strings. *)
Definition is_lower (c : ascii) : bool :=
  let n := nat_of_ascii c in (97 <=? n)%nat && (n <=? 122)%nat.

Definition is_upper (c : ascii) : bool :=
  let n := nat_of_ascii c in (65 <=? n)%nat && (n <=? 90)%nat.

Definition to_upper (c : ascii) : ascii :=
  if is_lower c then ascii_of_nat (nat_of_ascii c - 32) else c.

Definition to_lower (c : ascii) : ascii :=
  if is_upper c then ascii_of_nat (nat_of_ascii c + 32) else c.

(** [s.upper()] *)
Fixpoint upper (s : string) : string :=
  match s with
  | EmptyString => EmptyString
  | String c s' => String (to_upper c) (upper s')
  end.

(** [s.title()]: a cased character is upper-cased when the previous
    character is not cased and lower-cased when it is. *)
Fixpoint title_from (previous_is_cased : bool) (s : string) : string :=
  match s with
  | EmptyString => EmptyString
  | String c s' =>
      let cased := is_lower c || is_upper c in
      String (if previous_is_cased then to_lower c else to_upper c)
             (title_from cased s')
  end.

Definition title (s : string) : string := title_from false s.

(** [s.rjust(width, fill)], which the [%m]-like fields of [strftime] and
    the format spec [:20] (on the other side) need. *)
Fixpoint repeat_char (c : ascii) (n : nat) : string :=
  match n with
  | O => EmptyString
  | S n' => String c (repeat_char c n')
  end.

Definition rjust (width : nat) (fill : ascii) (s : string) : string :=
  repeat_char fill (width - String.length s) ++ s.

Definition ljust (width : nat) (fill : ascii) (s : string) : string :=
  s ++ repeat_char fill (width - String.length s).

End Py.

Import Py.

(** ** The device catalog *)

Record DeviceInfo : Type := mkDevice {
  model : string;
  description : string;
  ports : Z;
  stacking : bool;
  poe : bool;
  uplinks : list string
}.

Definition DEVICE_TEMPLATES : dict (dict DeviceInfo) :=
  [ ("cisco",
     [ ("c3850-48p",
        mkDevice "WS-C3850-48P"
          "Cisco IOS Software, C3850 Software (C3850-UNIVERSALK9-M), Version 16.12.4, RELEASE SOFTWARE (fc5)"
          48 true true
          ["TenGigabitEthernet1/1/1"; "TenGigabitEthernet1/1/2";
           "TenGigabitEthernet1/1/3"; "TenGigabitEthernet1/1/4"]);
       ("c3650-48p",
        mkDevice "WS-C3650-48PD"
          "Cisco IOS Software, C3650 Software (C3650-UNIVERSALK9-M), Version 16.12.4, RELEASE SOFTWARE (fc5)"
          48 true true
          ["TenGigabitEthernet1/1/1"; "TenGigabitEthernet1/1/2"]);
       ("c9300-48p",
        mkDevice "C9300-48P"
          "Cisco IOS Software [Gibraltar], Catalyst L3 Switch Software (CAT9K_IOSXE), Version 17.6.3, RELEASE SOFTWARE (fc4)"
          48 true true
          ["TenGigabitEthernet1/1/1"; "TenGigabitEthernet1/1/2";
           "TenGigabitEthernet1/1/3"; "TenGigabitEthernet1/1/4"]);
       ("n9k-c9300",
        mkDevice "N9K-C9300"
          "Cisco Nexus Operating System (NX-OS) Software, Version 9.3(8)"
          32 false false
          ["Ethernet1/1"; "Ethernet1/2"; "Ethernet1/3"; "Ethernet1/4"]) ]);
    ("juniper",
     [ ("ex4300-48p",
        mkDevice "EX4300-48P"
          "Juniper Networks, Inc. ex4300-48p Ethernet Switch, kernel JUNOS 20.4R3.8, Build date: 2021-10-15"
          48 true true
          ["ge-0/1/0"; "ge-0/1/1"; "ge-0/1/2"; "ge-0/1/3"]);
       ("qfx5100-48s",
        mkDevice "QFX5100-48S"
          "Juniper Networks, Inc. qfx5100-48s-6q Ethernet Switch, kernel JUNOS 20.4R3.8"
          48 false false
          ["et-0/0/48"; "et-0/0/49"; "et-0/0/50"; "et-0/0/51"]) ]);
    ("aruba",
     [ ("cx6300-48g",
        mkDevice "JL762A"
          "Aruba CX 6300 48G 4SFP56 Switch, ArubaOS-CX FL.10.10.1010"
          48 true false
          ["1/1/49"; "1/1/50"; "1/1/51"; "1/1/52"]);
       ("cx8360-48y8c",
        mkDevice "JL706A"
          "Aruba CX 8360-48Y8C Switch, ArubaOS-CX FL.10.10.1010"
          48 false false
          ["1/1/49"; "1/1/50"; "1/1/51"; "1/1/52"]) ]);
    ("extreme",
     [ ("x465-48w",
        mkDevice "X465-48W"
          "ExtremeXOS (X465-48W) version 32.3.1.4 by release-manager on Thu Nov  4 19:18:03 EDT 2021"
          48 true true
          ["1:49"; "1:50"; "1:51"; "1:52"]) ]);
    ("paloalto",
     [ ("pa-440",
        mkDevice "PA-440"
          "Palo Alto Networks PA-440 firewall, PAN-OS 10.2.3"
          8 false false
          ["ethernet1/1"; "ethernet1/2"]) ]);
    ("hpe",
     [ ("aruba-2930f-48g",
        mkDevice "JL262A"
          "HPE Aruba 2930F 48G 4SFP+ Switch, FL.16.11.0009"
          48 true false
          ["1/49"; "1/50"; "1/51"; "1/52"]);
       ("aruba-6300m-48g",
        mkDevice "JL659A"
          "HPE Aruba CX 6300M 48G Class 4 PoE 4SFP56 Switch, ArubaOS-CX FL.10.11.1020"
          48 true true
          ["1/1/49"; "1/1/50"; "1/1/51"; "1/1/52"]) ]);
    ("arista",
     [ ("7050sx3-48yc12",
        mkDevice "7050SX3-48YC12"
          "Arista Networks EOS version 4.28.3M"
          48 false false
          ["Ethernet49/1"; "Ethernet50/1"; "Ethernet51/1"; "Ethernet52/1"]);
       ("7280sr3-48yc8",
        mkDevice "7280SR3-48YC8"
          "Arista Networks EOS version 4.28.3M"
          48 false false
          ["Ethernet49/1"; "Ethernet50/1"; "Ethernet51/1"; "Ethernet52/1"]) ]);
    ("dell",
     [ ("n3248te-on",
        mkDevice "N3248TE-ON"
          "Dell EMC Networking N3248TE-ON, OS10 Enterprise 10.5.3.4"
          48 true true
          ["ethernet1/1/49"; "ethernet1/1/50"; "ethernet1/1/51";
           "ethernet1/1/52"]);
       ("s5248f-on",
        mkDevice "S5248F-ON"
          "Dell EMC Networking S5248F-ON, OS10 Enterprise 10.5.3.4"
          48 true false
          ["ethernet1/1/49"; "ethernet1/1/50"; "ethernet1/1/51";
           "ethernet1/1/52"]) ]);
    ("fortinet",
     [ ("fs-448e-fpoe",
        mkDevice "FS-448E-FPOE"
          "FortiSwitch-448E-FPOE v7.2.3,build0517,221201 (GA)"
          48 true true
          ["port49"; "port50"; "port51"; "port52"]);
       ("fs-548d-fpoe",
        mkDevice "FS-548D-FPOE"
          "FortiSwitch-548D-FPOE v7.2.3,build0517,221201 (GA)"
          48 true true
          ["port49"; "port50"; "port51"; "port52"]) ]);
    ("meraki",
     [ ("ms390-48uxb",
        mkDevice "MS390-48UXB"
          "Cisco Meraki MS390-48UXB Cloud-Managed Aggregation Switch, firmware 15.21"
          48 true true
          ["Port49"; "Port50"; "Port51"; "Port52"]);
       ("ms425-48",
        mkDevice "MS425-48"
          "Cisco Meraki MS425-48 Cloud-Managed Aggregation Switch, firmware 15.21"
          48 true false
          ["Port49"; "Port50"; "Port51"; "Port52"]) ]) ].

(** ** MIB section generators *)

(** [lines.append(x)] *)
Definition append (lines : list string) (x : string) : list string :=
  lines ++ [x].

(** [lines.extend(xs)] *)
Definition extend (lines xs : list string) : list string := lines ++ xs.

Definition generate_system_mib (device_info : DeviceInfo) (hostname : string)
  : list string :=
  let lines := [] in
  let lines := append lines
    (".1.3.6.1.2.1.1.1.0 = STRING: " ++ description device_info) in
  let lines := append lines ".1.3.6.1.2.1.1.2.0 = OID: .1.3.6.1.4.1.9.1.1719" in
  let lines := append lines
    ".1.3.6.1.2.1.1.3.0 = Timeticks: (123456789) 14 days, 6:56:07.89" in
  let lines := append lines ".1.3.6.1.2.1.1.4.0 = STRING: Network Administrator" in
  let lines := append lines (".1.3.6.1.2.1.1.5.0 = STRING: " ++ hostname) in
  let lines := append lines ".1.3.6.1.2.1.1.6.0 = STRING: NiAC-Go Simulated Device" in
  let lines := append lines ".1.3.6.1.2.1.1.7.0 = INTEGER: 78" in
  lines.

(** The body of the loop of [generate_interface_mib] at index [i].  Every
    descriptor of the catalog has the key ['uplinks'], so
    [device_info.get('uplinks', [])] is the field itself. *)
Definition interface_entry (device_info : DeviceInfo) (num_ports : Z)
    (i : Z) (lines : list string) : result (list string) :=
  let lines := append lines
    (".1.3.6.1.2.1.2.2.1.1." ++ str_int i ++ " = INTEGER: " ++ str_int i) in
  if i <=? num_ports then
    let lines := append lines
      (".1.3.6.1.2.1.2.2.1.2." ++ str_int i
         ++ " = STRING: GigabitEthernet1/0/" ++ str_int i) in
    let lines := append lines
      (".1.3.6.1.2.1.2.2.1.3." ++ str_int i ++ " = INTEGER: 6") in
    let lines := append lines
      (".1.3.6.1.2.1.2.2.1.5." ++ str_int i ++ " = Gauge32: 1000000000") in
    let lines := append lines
      (".1.3.6.1.2.1.2.2.1.8." ++ str_int i ++ " = INTEGER: 1") in
    Ok lines
  else if i <=? num_ports + len (uplinks device_info) then
    let uplink_idx := i - num_ports - 1 in
    rbind (list_getitem (uplinks device_info) uplink_idx) (fun uplink =>
    let lines := append lines
      (".1.3.6.1.2.1.2.2.1.2." ++ str_int i ++ " = STRING: " ++ uplink) in
    let lines := append lines
      (".1.3.6.1.2.1.2.2.1.3." ++ str_int i ++ " = INTEGER: 6") in
    let lines := append lines
      (".1.3.6.1.2.1.2.2.1.5." ++ str_int i ++ " = Gauge32: 10000000000") in
    let lines := append lines
      (".1.3.6.1.2.1.2.2.1.8." ++ str_int i ++ " = INTEGER: 1") in
    Ok lines)
  else
    let lines := append lines
      (".1.3.6.1.2.1.2.2.1.2." ++ str_int i ++ " = STRING: Vlan1") in
    let lines := append lines
      (".1.3.6.1.2.1.2.2.1.3." ++ str_int i ++ " = INTEGER: 53") in
    let lines := append lines
      (".1.3.6.1.2.1.2.2.1.5." ++ str_int i ++ " = Gauge32: 1000000000") in
    let lines := append lines
      (".1.3.6.1.2.1.2.2.1.8." ++ str_int i ++ " = INTEGER: 1") in
    Ok lines.

Definition generate_interface_mib (device_info : DeviceInfo)
  : result (list string) :=
  let lines := [] in
  let num_ports := ports device_info in
  let total_ifs := num_ports + len (uplinks device_info) + 1 in
  let lines := append lines
    (".1.3.6.1.2.1.2.1.0 = INTEGER: " ++ str_int total_ifs) in
  for_each (range 1 (total_ifs + 1))
           (interface_entry device_info num_ports) lines.

Definition generate_cisco_enterprise_mib (device_info : DeviceInfo)
  : list string :=
  let lines := [] in
  let lines := append lines
    (".1.3.6.1.4.1.9.9.13.1.3.1.3.1 = STRING: " ++ model device_info) in
  let lines := append lines ".1.3.6.1.4.1.9.9.13.1.3.1.5.1 = STRING: Chassis" in
  let lines := append lines
    ".1.3.6.1.4.1.9.9.13.1.3.1.11.1 = STRING: FOCCXXXXXXX" in
  let lines := append lines ".1.3.6.1.4.1.9.9.109.1.1.1.1.3.1 = Gauge32: 5" in
  let lines := append lines ".1.3.6.1.4.1.9.9.109.1.1.1.1.4.1 = Gauge32: 8" in
  let lines := append lines ".1.3.6.1.4.1.9.9.109.1.1.1.1.5.1 = Gauge32: 10" in
  let lines := append lines
    ".1.3.6.1.4.1.9.9.48.1.1.1.5.1 = INTEGER: 4194304000" in
  let lines := append lines
    ".1.3.6.1.4.1.9.9.48.1.1.1.6.1 = INTEGER: 12582912000" in
  lines.

Definition generate_juniper_enterprise_mib (device_info : DeviceInfo)
  : list string :=
  let lines := [] in
  let lines := append lines
    (".1.3.6.1.4.1.2636.3.1.2.0 = STRING: " ++ model device_info) in
  let lines := append lines ".1.3.6.1.4.1.2636.3.1.3.0 = STRING: SNXXXXXXXX" in
  lines.

(** ** The world the script runs in *)

(** A reading of the clock, as [datetime.now()] returns it. *)
Record DateTime : Type := mkDateTime {
  year : Z; month : Z; day : Z; hour : Z; minute : Z; second : Z
}.

(** [dt.strftime('%Y-%m-%d %H:%M:%S')]: the fields zero-padded, the year to
    four digits and the others to two. *)
Definition strftime (dt : DateTime) : string :=
  let pad w z := rjust w "0"%char (str_int z) in
  pad 4%nat (year dt) ++ "-" ++ pad 2%nat (month dt) ++ "-"
    ++ pad 2%nat (day dt) ++ " " ++ pad 2%nat (hour dt) ++ ":"
    ++ pad 2%nat (minute dt) ++ ":" ++ pad 2%nat (second dt).

(** What the process writes to its standard output: the text of a [print]
    call (which adds the newline), or the usage text of argparse. *)
Inductive Output : Type :=
| Print (text : string)
| PrintHelp.

Record World : Type := mkWorld {
  now : DateTime;                    (* the reading [datetime.now()] returns *)
  writable : string -> bool;         (* does [open(path, 'w')] succeed? *)
  stdout : list Output;              (* oldest first *)
  files : list (string * string)     (* paths written, latest first *)
}.

(** Computations that read and change the world and may raise. *)
Definition IO (A : Type) : Type := World -> result A * World.

Definition ret {A} (a : A) : IO A := fun w => (Ok a, w).

Definition bind {A B} (m : IO A) (k : A -> IO B) : IO B :=
  fun w => match m w with
           | (Ok a, w') => k a w'
           | (Raise e, w') => (Raise e, w')
           end.

Definition lift {A} (r : result A) : IO A := fun w => (r, w).

Notation "x <- m ;; k" := (bind m (fun x => k))
  (at level 61, m at next level, right associativity).
Notation "m ;; k" := (bind m (fun _ => k))
  (at level 61, right associativity).

Definition print (text : string) : IO unit :=
  fun w => (Ok tt, mkWorld (now w) (writable w)
                           (stdout w ++ [Print text]) (files w)).

Definition print_help : IO unit :=
  fun w => (Ok tt, mkWorld (now w) (writable w)
                           (stdout w ++ [PrintHelp]) (files w)).

Definition datetime_now : IO DateTime := fun w => (Ok (now w), w).

(** [with open(path, 'w') as f: f.write(a); f.write(b)]: the file holds
    [a ++ b] afterwards; [open] raises [OSError] on a path that cannot be
    written. *)
Definition write_file (path content : string) : IO unit :=
  fun w => if writable w path
           then (Ok tt, mkWorld (now w) (writable w) (stdout w)
                                ((path, content) :: files w))
           else (Raise OSError, w).

(** ** The walk assembler *)

(** The dispatch on the vendor at the end of the assembly. *)
Definition vendor_specific_mib (vendor : string) (device_info : DeviceInfo)
    (lines : list string) : list string :=
  if String.eqb vendor "cisco" then
    extend lines (generate_cisco_enterprise_mib device_info)
  else if String.eqb vendor "juniper" then
    extend lines (generate_juniper_enterprise_mib device_info)
  else lines.

(** The list [lines] that [generate_walk_file] builds between its summary
    and the write, given the clock reading [date]. *)
Definition walk_lines (vendor : string) (device_info : DeviceInfo)
    (hostname : string) (date : DateTime) : result (list string) :=
  let lines := [] in
  let lines := append lines
    ("# SNMP Walk File for " ++ title vendor ++ " " ++ model device_info) in
  let lines := append lines "# Generated by NiAC-Go walk file generator" in
  let lines := append lines ("# Date: " ++ strftime date) in
  let lines := append lines ("# Hostname: " ++ hostname) in
  let lines := append lines "#" in
  let lines := extend lines (generate_system_mib device_info hostname) in
  let lines := append lines "" in
  rbind (generate_interface_mib device_info) (fun interface_lines =>
  let lines := extend lines interface_lines in
  let lines := append lines "" in
  let lines := vendor_specific_mib vendor device_info lines in
  Ok lines).

(** The bytes written: ['\n'.join(lines)] and then ['\n']. *)
Definition LF : string := String (ascii_of_nat 10) EmptyString.

Definition file_content (lines : list string) : string :=
  join LF lines ++ LF.

(** [len([l for l in lines if l and not l.startswith('#')])] *)
Definition count_oids (lines : list string) : Z :=
  len (filter (fun l => negb (String.eqb l "") && negb (startswith l "#"))
              lines).

Definition generate_walk_file (vendor model_key output_file hostname : string)
  : IO bool :=
  if negb (dict_contains DEVICE_TEMPLATES vendor) then
    print ("Error: Unknown vendor '" ++ vendor ++ "'") ;;
    print ("Available vendors: " ++ join ", " (keys DEVICE_TEMPLATES)) ;;
    ret false
  else
    models <- lift (dict_getitem DEVICE_TEMPLATES vendor) ;;
    if negb (dict_contains models model_key) then
      print ("Error: Unknown model '" ++ model_key ++ "' for vendor '"
               ++ vendor ++ "'") ;;
      print ("Available models: " ++ join ", " (keys models)) ;;
      ret false
    else
      device_info <- lift (dict_getitem models model_key) ;;
      print ("Generating walk file for " ++ vendor ++ " " ++ model_key
               ++ "...") ;;
      print ("  Model: " ++ model device_info) ;;
      print ("  Ports: " ++ str_int (ports device_info)) ;;
      print ("  Stacking: " ++ str_bool (stacking device_info)) ;;
      print ("  PoE: " ++ str_bool (poe device_info)) ;;
      date <- datetime_now ;;
      lines <- lift (walk_lines vendor device_info hostname date) ;;
      write_file output_file (file_content lines) ;;
      print (LF ++ "✅ Walk file generated: " ++ output_file) ;;
      print ("   Total OIDs: " ++ str_int (count_oids lines)) ;;
      ret true.

(** ** Listing and command line *)

(** [sorted(d.items())]: the keys of a dict are distinct, so the order of
    the pairs is the order of their keys. *)
Fixpoint insert_sorted {V} (kv : string * V) (l : list (string * V))
  : list (string * V) :=
  match l with
  | [] => [kv]
  | kv' :: l' => if String.leb (fst kv) (fst kv') then kv :: l
                 else kv' :: insert_sorted kv l'
  end.

Definition sorted_items {V} (d : dict V) : list (string * V) :=
  fold_right insert_sorted [] d.

Fixpoint for_each_io {A} (xs : list A) (body : A -> IO unit) : IO unit :=
  match xs with
  | [] => ret tt
  | x :: xs' => body x ;; for_each_io xs' body
  end.

Definition list_devices : IO unit :=
  print (LF ++ "=== Available Device Templates ===" ++ LF) ;;
  for_each_io (sorted_items DEVICE_TEMPLATES) (fun '(vendor, models) =>
    print (upper vendor ++ ":") ;;
    for_each_io (sorted_items models) (fun '(model_key, info) =>
      print ("  " ++ ljust 20 " "%char model_key ++ " - " ++ model info
               ++ " (" ++ str_int (ports info) ++ " ports)")) ;;
    print "").

(** The namespace [parse_args] returns: an option that was not given is
    [None], except [--hostname], which has a default. *)
Record Args : Type := mkArgs {
  arg_list : bool;
  arg_vendor : option string;
  arg_model : option string;
  arg_output : option string;
  arg_hostname : string
}.

(** [not x] for an optional string: [None] and the empty string are false. *)
Definition falsy (x : option string) : bool :=
  match x with
  | None => true
  | Some s => String.eqb s ""
  end.

Definition get_arg (x : option string) : string :=
  match x with Some s => s | None => "" end.

(** [main] after [parser.parse_args()]; its value is the exit code. *)
Definition main (args : Args) : IO Z :=
  if arg_list args then
    list_devices ;;
    ret 0
  else if falsy (arg_vendor args) || falsy (arg_model args)
          || falsy (arg_output args) then
    print_help ;;
    ret 1
  else
    success <- generate_walk_file (get_arg (arg_vendor args))
                 (get_arg (arg_model args)) (get_arg (arg_output args))
                 (arg_hostname args) ;;
    ret (if success : bool then 0 else 1).

(** A world at the start of a run: nothing printed or written yet. *)
Definition initial_world (date : DateTime) (writable : string -> bool)
  : World :=
  mkWorld date writable [] [].

(** * Definitions for the statements

    The rows of one index as a function, the interface table in the
    words of the specification, what a run prints, and the recognisers of
    the file format. *)

(** ** The interface section *)

(** The rows the loop body adds at index [i], as a function of the
    descriptor: what [interface_entry] appends. *)
Definition entry_rows (device_info : DeviceInfo) (i : Z) : list string :=
  (".1.3.6.1.2.1.2.2.1.1." ++ str_int i ++ " = INTEGER: " ++ str_int i) ::
  if i <=? ports device_info then
    [ ".1.3.6.1.2.1.2.2.1.2." ++ str_int i
        ++ " = STRING: GigabitEthernet1/0/" ++ str_int i;
      ".1.3.6.1.2.1.2.2.1.3." ++ str_int i ++ " = INTEGER: 6";
      ".1.3.6.1.2.1.2.2.1.5." ++ str_int i ++ " = Gauge32: 1000000000";
      ".1.3.6.1.2.1.2.2.1.8." ++ str_int i ++ " = INTEGER: 1" ]
  else if i <=? ports device_info + len (uplinks device_info) then
    [ ".1.3.6.1.2.1.2.2.1.2." ++ str_int i ++ " = STRING: "
        ++ nth (Z.to_nat (i - ports device_info - 1)) (uplinks device_info) "";
      ".1.3.6.1.2.1.2.2.1.3." ++ str_int i ++ " = INTEGER: 6";
      ".1.3.6.1.2.1.2.2.1.5." ++ str_int i ++ " = Gauge32: 10000000000";
      ".1.3.6.1.2.1.2.2.1.8." ++ str_int i ++ " = INTEGER: 1" ]
  else
    [ ".1.3.6.1.2.1.2.2.1.2." ++ str_int i ++ " = STRING: Vlan1";
      ".1.3.6.1.2.1.2.2.1.3." ++ str_int i ++ " = INTEGER: 53";
      ".1.3.6.1.2.1.2.2.1.5." ++ str_int i ++ " = Gauge32: 1000000000";
      ".1.3.6.1.2.1.2.2.1.8." ++ str_int i ++ " = INTEGER: 1" ].

(** [total_ifs] of [generate_interface_mib]. *)
Definition total_ifs (device_info : DeviceInfo) : Z :=
  ports device_info + len (uplinks device_info) + 1.

Definition ifNumber_line (n : Z) : string :=
  ".1.3.6.1.2.1.2.1.0 = INTEGER: " ++ str_int n.

(** The decimal reading of a string, the inverse of [str_int]. *)
Definition parse_int (s : string) : option Z :=
  option_map Z.of_int (NilZero.int_of_string s).

(** ** The interface table in the words of the specification *)

(** One interface: the columns the generator emits for it. *)
Record Interface : Type := mkInterface {
  ifIndex : Z;
  ifDescr : string;
  ifType : Z;
  ifSpeed : Z;
  ifOperStatus : Z
}.

(** The five rows of an interface, under [.1.3.6.1.2.1.2.2.1.{1,2,3,5,8}]. *)
Definition interface_lines (x : Interface) : list string :=
  [ ".1.3.6.1.2.1.2.2.1.1." ++ str_int (ifIndex x) ++ " = INTEGER: "
      ++ str_int (ifIndex x);
    ".1.3.6.1.2.1.2.2.1.2." ++ str_int (ifIndex x) ++ " = STRING: "
      ++ ifDescr x;
    ".1.3.6.1.2.1.2.2.1.3." ++ str_int (ifIndex x) ++ " = INTEGER: "
      ++ str_int (ifType x);
    ".1.3.6.1.2.1.2.2.1.5." ++ str_int (ifIndex x) ++ " = Gauge32: "
      ++ str_int (ifSpeed x);
    ".1.3.6.1.2.1.2.2.1.8." ++ str_int (ifIndex x) ++ " = INTEGER: "
      ++ str_int (ifOperStatus x) ].

(** The three roles, in the specification's words. *)
Definition spec_access_port (i : Z) : Interface :=
  mkInterface i ("GigabitEthernet1/0/" ++ str_int i) 6 1000000000 1.

Definition spec_uplink_port (i : Z) (name : string) : Interface :=
  mkInterface i name 6 10000000000 1.

Definition spec_management (i : Z) : Interface :=
  mkInterface i "Vlan1" 53 1000000000 1.

(** Indices [1..ports] are access ports, the next [len(uplinks)] indices
    the uplinks in the order of the descriptor, the last index the
    management interface. *)
Definition spec_interface_table (d : DeviceInfo) : list Interface :=
  (map spec_access_port (range 1 (ports d + 1))
   ++ map (fun '(i, name) => spec_uplink_port i name)
          (combine (range (ports d + 1) (ports d + len (uplinks d) + 1))
                   (uplinks d))
   ++ [spec_management (ports d + len (uplinks d) + 1)])%list.

(** ** Two descriptors of the catalog, for the examples *)

(** The descriptor of [DEVICE_TEMPLATES['paloalto']['pa-440']]. *)
Definition pa_440 : DeviceInfo :=
  mkDevice "PA-440" "Palo Alto Networks PA-440 firewall, PAN-OS 10.2.3"
           8 false false ["ethernet1/1"; "ethernet1/2"].

(** The descriptor of [DEVICE_TEMPLATES['cisco']['c3850-48p']]. *)
Definition c3850_48p : DeviceInfo :=
  mkDevice "WS-C3850-48P"
    "Cisco IOS Software, C3850 Software (C3850-UNIVERSALK9-M), Version 16.12.4, RELEASE SOFTWARE (fc5)"
    48 true true
    ["TenGigabitEthernet1/1/1"; "TenGigabitEthernet1/1/2";
     "TenGigabitEthernet1/1/3"; "TenGigabitEthernet1/1/4"].

(** ** The parts of a run *)

(** The comment block at the head of the file. *)
Definition header_lines (vendor : string) (d : DeviceInfo)
    (hostname : string) (date : DateTime) : list string :=
  [ "# SNMP Walk File for " ++ title vendor ++ " " ++ model d;
    "# Generated by NiAC-Go walk file generator";
    "# Date: " ++ strftime date;
    "# Hostname: " ++ hostname;
    "#" ].

(** The rows of the vendor dispatch. *)
Definition enterprise_lines (vendor : string) (d : DeviceInfo) : list string :=
  vendor_specific_mib vendor d [].

(** The world after [out] was printed and [new] was written. *)
Definition after (w : World) (out : list Output)
    (new : list (string * string)) : World :=
  mkWorld (now w) (writable w) (stdout w ++ out) (new ++ files w).

Definition vendor_error (vendor : string) : list Output :=
  [ Print ("Error: Unknown vendor '" ++ vendor ++ "'");
    Print ("Available vendors: " ++ join ", " (keys DEVICE_TEMPLATES)) ].

Definition model_error (vendor model_key : string) (models : dict DeviceInfo)
  : list Output :=
  [ Print ("Error: Unknown model '" ++ model_key ++ "' for vendor '"
             ++ vendor ++ "'");
    Print ("Available models: " ++ join ", " (keys models)) ].

Definition summary (vendor model_key : string) (d : DeviceInfo) : list Output :=
  [ Print ("Generating walk file for " ++ vendor ++ " " ++ model_key ++ "...");
    Print ("  Model: " ++ model d);
    Print ("  Ports: " ++ str_int (ports d));
    Print ("  Stacking: " ++ str_bool (stacking d));
    Print ("  PoE: " ++ str_bool (poe d)) ].

Definition report (output_file : string) (lines : list string) : list Output :=
  [ Print (LF ++ "✅ Walk file generated: " ++ output_file);
    Print ("   Total OIDs: " ++ str_int (count_oids lines)) ].

(** The model keys of the vendors other than [vendor]. *)
Definition models_of_other_vendors (vendor : string) : list string :=
  flat_map (fun '(v, models) => if String.eqb v vendor then [] else keys models)
           DEVICE_TEMPLATES.

(** No model key of the catalog occurs under two vendors. *)
Definition model_keys_disjoint : bool :=
  forallb (fun '(v, models) =>
             forallb (fun k => negb (existsb (String.eqb k)
                                             (models_of_other_vendors v)))
                     (keys models))
          DEVICE_TEMPLATES.

(** ** The format of the file *)

(** Every character of [s] satisfies [p]. *)
Fixpoint string_forall (p : ascii -> bool) (s : string) : bool :=
  match s with
  | EmptyString => true
  | String c s' => p c && string_forall p s'
  end.

Definition is_newline (c : ascii) : bool := Ascii.eqb c (ascii_of_nat 10).

Definition no_newline (s : string) : bool :=
  string_forall (fun c => negb (is_newline c)) s.

Definition is_digit (c : ascii) : bool :=
  let n := nat_of_ascii c in (48 <=? n)%nat && (n <=? 57)%nat.

(** The text splits at each newline: Python's [s.split('\n')]. *)
Fixpoint split_newlines (s : string) : list string :=
  match s with
  | EmptyString => [""]
  | String c s' =>
      if is_newline c then "" :: split_newlines s'
      else match split_newlines s' with
           | [] => [String c ""]
           | piece :: pieces => String c piece :: pieces
           end
  end.

(** The longest prefix of characters in [p], and the rest. *)
Fixpoint span (p : ascii -> bool) (s : string) : string * string :=
  match s with
  | EmptyString => ("", "")
  | String c s' =>
      if p c then let (taken, rest) := span p s' in (String c taken, rest)
      else ("", s)
  end.

Fixpoint strip_prefix (p s : string) : option string :=
  match p, s with
  | EmptyString, _ => Some s
  | String a p', String b s' =>
      if Ascii.eqb a b then strip_prefix p' s' else None
  | String _ _, EmptyString => None
  end.

(** A dotted-decimal OID: one or more groups of a dot and digits. *)
Fixpoint oid_groups (after_dot : bool) (s : string) : bool :=
  match s with
  | EmptyString => negb after_dot
  | String c s' =>
      if Ascii.eqb c "." then negb after_dot && oid_groups true s'
      else is_digit c && oid_groups false s'
  end.

Definition is_oid (s : string) : bool :=
  startswith s "." && oid_groups false s.

Definition is_oid_char (c : ascii) : bool := is_digit c || Ascii.eqb c ".".

Definition is_tag_char (c : ascii) : bool :=
  is_lower c || is_upper c || is_digit c.

(** [<OID> = <TypeTag>: <value>] *)
Definition is_oid_entry (line : string) : bool :=
  let (oid, rest) := span is_oid_char line in
  is_oid oid &&
  match strip_prefix " = " rest with
  | None => false
  | Some rest =>
      let (tag, rest) := span is_tag_char rest in
      negb (String.eqb tag "") &&
      match strip_prefix ": " rest with
      | None => false
      | Some value => no_newline value
      end
  end.

Definition is_comment (line : string) : bool := startswith line "#".

Definition is_blank (line : string) : bool := String.eqb line "".

(** A line of a walk file: a comment, a blank line, or an OID entry. *)
Definition is_walk_line (line : string) : bool :=
  is_comment line || is_blank line || is_oid_entry line.

(** The text ends with exactly one newline: its last piece is empty and
    the piece before it is not, unless the text is the newline alone. *)
Definition ends_with_one_newline (content : string) : bool :=
  match rev (split_newlines content) with
  | last_piece :: before :: more =>
      String.eqb last_piece ""
      && (negb (String.eqb before "")
          || match more with [] => true | _ :: _ => false end)
  | _ => false
  end.

(** The format the file is to have: newline-terminated walk lines, and a
    single newline at the end. *)
Definition is_walk_file (content : string) : bool :=
  forallb is_walk_line (removelast (split_newlines content))
  && ends_with_one_newline content.

(** A walk line that can be a line of a file: it holds no newline. *)
Definition is_line (l : string) : bool := is_walk_line l && no_newline l.

(** No string of the catalog holds a newline. *)
Definition catalog_clean : bool :=
  forallb (fun '(vendor, models) =>
             no_newline (title vendor) &&
             forallb (fun '(_, d) =>
                        no_newline (model d) && no_newline (description d)
                        && forallb no_newline (uplinks d))
                     (models : dict DeviceInfo))
          DEVICE_TEMPLATES.

(** The file a run from a fresh world writes when it returns [True]. *)
Definition written_by (vendor model_key hostname : string) (date : DateTime)
  : option string :=
  match generate_walk_file vendor model_key "out.walk" hostname
          (initial_world date (fun _ => true)) with
  | (Ok true, w') =>
      match files w' with
      | (_, content) :: _ => Some content
      | [] => None
      end
  | _ => None
  end.

(** ** Lookups, options and listing *)


(** [--vendor], [--model] and [--output] are all given and not empty. *)
Definition options_given (args : Args) : bool :=
  negb (falsy (arg_vendor args) || falsy (arg_model args)
        || falsy (arg_output args)).

(** The test of the comprehension that counts the OIDs:
    [l and not l.startswith('#')]. *)
Definition counted (l : string) : bool :=
  negb (String.eqb l "") && negb (startswith l "#").

(** The line [list_devices] prints for a model. *)
Definition model_line (entry : string * DeviceInfo) : Output :=
  Print ("  " ++ ljust 20 " "%char (fst entry) ++ " - " ++ model (snd entry)
           ++ " (" ++ str_int (ports (snd entry)) ++ " ports)").

(** The lines [list_devices] prints for a vendor. *)
Definition vendor_block (entry : string * dict DeviceInfo) : list Output :=
  (Print (upper (fst entry) ++ ":")
     :: map model_line (sorted_items (snd entry)) ++ [Print ""])%list.

(** The OID of an entry: the characters before [" = "]. *)
Definition oid_of (line : string) : string := fst (span is_oid_char line).

(** The lines of a walk, section by section. *)
Definition assembled_lines (vendor : string) (d : DeviceInfo)
    (hostname : string) (date : DateTime) : list string :=
  (header_lines vendor d hostname date
     ++ generate_system_mib d hostname
     ++ [""]
     ++ (ifNumber_line (total_ifs d)
           :: flat_map (entry_rows d) (range 1 (total_ifs d + 1)))
     ++ [""]
     ++ enterprise_lines vendor d)%list.

(** What [list_devices] prints. *)
Definition listing : list Output :=
  Print (LF ++ "=== Available Device Templates ===" ++ LF)
    :: flat_map vendor_block (sorted_items DEVICE_TEMPLATES).

(** The keys of a list of items ascend. *)
Definition keys_ascend {V} (items : list (string * V)) : Prop :=
  Sorted (fun a b => String.leb (fst a) (fst b) = true) items.

(** ** The OIDs of a walk *)

(** The OIDs of the five rows of index [i]. *)
Definition row_oids (i : Z) : list string :=
  [ ".1.3.6.1.2.1.2.2.1.1." ++ str_int i;
    ".1.3.6.1.2.1.2.2.1.2." ++ str_int i;
    ".1.3.6.1.2.1.2.2.1.3." ++ str_int i;
    ".1.3.6.1.2.1.2.2.1.5." ++ str_int i;
    ".1.3.6.1.2.1.2.2.1.8." ++ str_int i ].

(** The OID lies in the interface table, [.1.3.6.1.2.1.2.2.1]. *)
Definition in_if_table (oid : string) : bool :=
  startswith oid ".1.3.6.1.2.1.2.2.1.".

(** The string without its first [n] characters. *)
Fixpoint string_drop (n : nat) (s : string) : string :=
  match n, s with
  | O, _ => s
  | S n', String _ s' => string_drop n' s'
  | S _, EmptyString => EmptyString
  end.

(** No string occurs twice in the list. *)
Fixpoint nodupb (l : list string) : bool :=
  match l with
  | [] => true
  | x :: l' => negb (existsb (String.eqb x) l') && nodupb l'
  end.


(** * Properties *)

(** ** Lists, ranges and loops *)

Section Loops.

Context {A : Type}.

Lemma len_nonneg (l : list A) : 0 <= len l.
Proof. unfold len. lia. Qed.

(** Inside the bounds indexing does not raise and is [nth]. *)
Lemma list_getitem_in_range (l : list A) (i : Z) (d : A) :
  0 <= i < len l -> list_getitem l i = Ok (nth (Z.to_nat i) l d).
Proof.
  intros Hi. unfold list_getitem.
  destruct (i <? 0) eqn:Hneg; [apply Z.ltb_lt in Hneg; lia|].
  rewrite Hneg.
  destruct (len l <=? i) eqn:Hhi; [apply Z.leb_le in Hhi; lia|].
  simpl.
  destruct (nth_error l (Z.to_nat i)) as [x|] eqn:Hnth.
  - now rewrite (nth_error_nth _ _ d Hnth).
  - apply nth_error_None in Hnth. unfold len in Hi. lia.
Qed.

(** A loop whose body only appends appends the bodies' rows in order. *)
Lemma for_each_appends {B : Type} (f : B -> list A)
    (body : B -> list A -> result (list A)) :
  (forall x s, body x s = Ok (s ++ f x)%list) ->
  forall xs s, for_each xs body s = Ok (s ++ flat_map f xs)%list.
Proof.
  intros Hbody xs. induction xs as [|x xs IH]; intros s; simpl.
  - now rewrite app_nil_r.
  - rewrite Hbody. simpl. rewrite IH. now rewrite app_assoc.
Qed.

End Loops.

Lemma range_length (a b : Z) : List.length (range a b) = Z.to_nat (b - a).
Proof. unfold range. now rewrite length_map, length_seq. Qed.

Lemma range_empty (a b : Z) : b <= a -> range a b = [].
Proof.
  intros H. unfold range. replace (Z.to_nat (b - a)) with O by lia.
  reflexivity.
Qed.

Lemma range_cons (a b : Z) : a < b -> range a b = a :: range (a + 1) b.
Proof.
  intros H. unfold range.
  replace (Z.to_nat (b - a)) with (S (Z.to_nat (b - (a + 1)))) by lia.
  simpl. f_equal; [lia|].
  rewrite <- seq_shift, map_map. apply map_ext. intros k. lia.
Qed.

Lemma range_split (a b c : Z) :
  a <= b <= c -> (range a c = range a b ++ range b c)%list.
Proof.
  intros H. unfold range.
  replace (Z.to_nat (c - a)) with (Z.to_nat (b - a) + Z.to_nat (c - b))%nat
    by lia.
  rewrite seq_app, map_app. f_equal. simpl.
  generalize (Z.to_nat (c - b)) as n. intros n.
  rewrite <- (Nat.add_0_r (Z.to_nat (b - a))) at 1.
  generalize 0%nat as s. intros s. revert s.
  induction n as [|n IH]; intros s; simpl; [reflexivity|].
  f_equal; [lia|].
  rewrite <- Nat.add_succ_r. apply IH.
Qed.

Lemma range_In (a b x : Z) : In x (range a b) <-> a <= x < b.
Proof.
  unfold range. rewrite in_map_iff. split.
  - intros (k & <- & Hk). apply in_seq in Hk. lia.
  - intros H. exists (Z.to_nat (x - a)). split; [lia|].
    apply in_seq. lia.
Qed.

Lemma range_singleton (a : Z) : range a (a + 1) = [a].
Proof.
  rewrite range_cons by lia. now rewrite range_empty by lia.
Qed.

(** ** The interface table *)

(** The loop body never raises: in the uplink branch the index
    [i - num_ports - 1] lies inside [uplinks]. *)
Lemma interface_entry_appends (d : DeviceInfo) (i : Z) (lines : list string) :
  interface_entry d (ports d) i lines = Ok (lines ++ entry_rows d i)%list.
Proof.
  unfold interface_entry, entry_rows, append.
  destruct (i <=? ports d) eqn:Hacc.
  - repeat rewrite <- app_assoc. reflexivity.
  - destruct (i <=? ports d + len (uplinks d)) eqn:Hup.
    + apply Z.leb_gt in Hacc. apply Z.leb_le in Hup.
      rewrite (list_getitem_in_range _ _ "") by lia.
      simpl. repeat rewrite <- app_assoc. reflexivity.
    + repeat rewrite <- app_assoc. reflexivity.
Qed.

(** The shape of the whole section, for every descriptor. *)
Lemma generate_interface_mib_rows (d : DeviceInfo) :
  generate_interface_mib d =
  Ok (ifNumber_line (total_ifs d)
        :: flat_map (entry_rows d) (range 1 (total_ifs d + 1))).
Proof.
  unfold generate_interface_mib.
  rewrite (for_each_appends (entry_rows d)).
  - reflexivity.
  - intros i s. apply interface_entry_appends.
Qed.

Lemma entry_rows_length (d : DeviceInfo) (i : Z) :
  List.length (entry_rows d i) = 5%nat.
Proof.
  unfold entry_rows.
  destruct (i <=? ports d); [reflexivity|].
  destruct (i <=? ports d + len (uplinks d)); reflexivity.
Qed.

Lemma flat_map_constant_length {A B} (f : A -> list B) (n : nat) (l : list A) :
  (forall x, List.length (f x) = n) ->
  List.length (flat_map f l) = (n * List.length l)%nat.
Proof.
  intros Hf. induction l as [|x l IH]; simpl; [lia|].
  rewrite length_app, Hf, IH. lia.
Qed.

Lemma parse_str_int (z : Z) : parse_int (str_int z) = Some z.
Proof.
  unfold parse_int, str_int.
  rewrite NilZero.isi.
  - simpl. now rewrite DecimalZ.of_to.
  - destruct z; simpl; try discriminate.
    intros [= H]. now apply (Unsigned.to_uint_nonnil p).
  - destruct z; simpl; try discriminate.
    intros [= H]. now apply (Unsigned.to_uint_nonnil p).
Qed.

Lemma str_int_inj (a b : Z) : str_int a = str_int b -> a = b.
Proof.
  intros H. apply (f_equal parse_int) in H.
  rewrite !parse_str_int in H. congruence.
Qed.

Lemma entry_rows_not_ifNumber (d : DeviceInfo) (i : Z) (r : string) :
  In r (entry_rows d i) -> startswith r ".1.3.6.1.2.1.2.1.0" = false.
Proof.
  unfold entry_rows.
  destruct (i <=? ports d); [|destruct (i <=? ports d + len (uplinks d))];
    simpl; intros H; repeat (destruct H as [<-|H]; [reflexivity|]);
    contradiction.
Qed.

(** C1. For every descriptor the interface section starts with the
    ifNumber line, [.1.3.6.1.2.1.2.1.0 = INTEGER: n], where [n] is the
    decimal form of [ports + len(uplinks) + 1] and reads back as that
    number; no other line of the section is under that OID; the generator
    does not raise. *)
Theorem ifNumber_is_total (d : DeviceInfo) :
  let total := ports d + len (uplinks d) + 1 in
  exists rows,
    generate_interface_mib d =
      Ok ((".1.3.6.1.2.1.2.1.0 = INTEGER: " ++ str_int total) :: rows) /\
    parse_int (str_int total) = Some total /\
    forall r, In r rows -> startswith r ".1.3.6.1.2.1.2.1.0" = false.
Proof.
  intros total. rewrite generate_interface_mib_rows.
  eexists. split; [reflexivity|]. split; [apply parse_str_int|].
  intros r Hr. apply in_flat_map in Hr. destruct Hr as (i & _ & Hr).
  now apply entry_rows_not_ifNumber in Hr.
Qed.



(** ** The interface table as the specification describes it *)

Lemma flat_map_map_ext {A B C} (f : A -> list C) (g : B -> list C)
    (h : A -> B) (l : list A) :
  (forall x, In x l -> f x = g (h x)) ->
  flat_map f l = flat_map g (map h l).
Proof.
  induction l as [|x l IH]; intros H; simpl; [reflexivity|].
  rewrite (H x) by now left. f_equal. apply IH.
  intros y Hy. apply H. now right.
Qed.

(** Pairing a range with a list of its length pairs each index with the
    element at its offset. *)
Lemma combine_range_nth {A} (l : list A) (d : A) (a : Z) :
  combine (range a (a + len l)) l =
  map (fun i => (i, nth (Z.to_nat (i - a)) l d)) (range a (a + len l)).
Proof.
  revert a. induction l as [|x l IH]; intros a.
  - unfold len; simpl. rewrite range_empty by lia. reflexivity.
  - assert (Hlen : len (x :: l) = 1 + len l) by (unfold len; simpl List.length; lia).
    pose proof (len_nonneg l) as Hl.
    rewrite Hlen, range_cons by lia. cbn [combine map].
    replace (Z.to_nat (a - a)) with O by lia. f_equal.
    replace (a + (1 + len l)) with (a + 1 + len l) by lia.
    rewrite IH. apply map_ext_in. intros i Hi. apply range_In in Hi.
    replace (Z.to_nat (i - a)) with (S (Z.to_nat (i - (a + 1)))) by lia.
    reflexivity.
Qed.

Lemma combine_snd {A B} (l1 : list A) (l2 : list B) :
  List.length l1 = List.length l2 -> map snd (combine l1 l2) = l2.
Proof.
  revert l2. induction l1 as [|x l1 IH]; intros [|y l2] H;
    simpl in *; try discriminate; [reflexivity|].
  f_equal. apply IH. lia.
Qed.

(** C2. For a descriptor with a port count that is not negative, the
    interface section is the ifNumber line followed by the five rows of
    each interface of the table the specification describes: access ports
    [GigabitEthernet1/0/i] (type 6, speed 1000000000, status 1) at
    [1..ports], the uplinks under the names and in the order of the
    descriptor (type 6, speed 10000000000, status 1) at the next indices,
    and [Vlan1] (type 53, speed 1000000000, status 1) at the last index;
    the indices of the table are [1..total] in order, and the names of its
    uplink part are [uplinks]. *)
Theorem interface_mib_index_roles (d : DeviceInfo) :
  0 <= ports d ->
  generate_interface_mib d =
    Ok (ifNumber_line (ports d + len (uplinks d) + 1)
          :: flat_map interface_lines (spec_interface_table d)) /\
  map ifIndex (spec_interface_table d) =
    range 1 (ports d + len (uplinks d) + 1 + 1) /\
  map ifDescr
      (map (fun '(i, name) => spec_uplink_port i name)
           (combine (range (ports d + 1) (ports d + len (uplinks d) + 1))
                    (uplinks d))) = uplinks d.
Proof.
  intros Hports. pose proof (len_nonneg (uplinks d)) as Hlen.
  set (p := ports d) in *. set (n := len (uplinks d)) in *.
  assert (Hrange : range 1 (p + n + 1 + 1) =
                   (range 1 (p + 1) ++ range (p + 1) (p + n + 1)
                      ++ [p + n + 1])%list).
  { rewrite (range_split 1 (p + 1) (p + n + 1 + 1)) by lia.
    rewrite (range_split (p + 1) (p + n + 1) (p + n + 1 + 1)) by lia.
    now rewrite range_singleton. }
  assert (Hcomb : combine (range (p + 1) (p + n + 1)) (uplinks d) =
                  map (fun i => (i, nth (Z.to_nat (i - (p + 1))) (uplinks d) ""))
                      (range (p + 1) (p + n + 1))).
  { replace (p + n + 1) with (p + 1 + len (uplinks d)) by (subst n; lia).
    apply combine_range_nth. }
  split; [|split].
  - rewrite generate_interface_mib_rows. unfold total_ifs. fold p n.
    do 2 f_equal. unfold spec_interface_table. fold p n.
    rewrite Hrange, Hcomb.
    rewrite !flat_map_app. f_equal; [|f_equal].
    + apply flat_map_map_ext. intros i Hi. apply range_In in Hi.
      unfold entry_rows. fold p.
      destruct (i <=? p) eqn:E; [reflexivity|apply Z.leb_gt in E; lia].
    + rewrite map_map. apply flat_map_map_ext. intros i Hi.
      apply range_In in Hi. unfold entry_rows. fold p n.
      destruct (i <=? p) eqn:E; [apply Z.leb_le in E; lia|].
      destruct (i <=? p + n) eqn:E'; [|apply Z.leb_gt in E'; lia].
      replace (i - p - 1) with (i - (p + 1)) by lia. reflexivity.
    + simpl. rewrite app_nil_r. unfold entry_rows. fold p n.
      destruct (p + n + 1 <=? p) eqn:E; [apply Z.leb_le in E; lia|].
      destruct (p + n + 1 <=? p + n) eqn:E'; [apply Z.leb_le in E'; lia|].
      reflexivity.
  - unfold spec_interface_table. fold p n. rewrite Hrange, Hcomb.
    rewrite !map_app, !map_map. simpl.
    f_equal; [|f_equal]; apply map_id.
  - rewrite map_map.
    rewrite (map_ext _ snd) by (intros [i name]; reflexivity).
    apply combine_snd. rewrite range_length. subst n. unfold len. lia.
Qed.

Lemma interface_mib_index_roles_witness :
  0 <= ports pa_440 /\
  generate_interface_mib pa_440 =
    Ok (ifNumber_line 11 :: flat_map interface_lines (spec_interface_table pa_440)).
Proof.
  split; [vm_compute; discriminate|].
  destruct (interface_mib_index_roles pa_440) as (H & _ & _);
    [vm_compute; discriminate|].
  exact H.
Defined.

Example c3850_48p_in_catalog :
  rbind (dict_getitem DEVICE_TEMPLATES "cisco")
        (fun models => dict_getitem models "c3850-48p") = Ok c3850_48p.
Proof. reflexivity. Qed.

(** The scenario of the specification: [cisco]/[c3850-48p] has 53
    interfaces, index 49 is the first uplink and index 53 is [Vlan1]. *)
Example c3850_48p_interfaces :
  exists lines,
    generate_interface_mib c3850_48p = Ok lines /\
    nth_error lines 0 = Some ".1.3.6.1.2.1.2.1.0 = INTEGER: 53" /\
    nth_error lines (1 + 5 * 48 + 1) =
      Some ".1.3.6.1.2.1.2.2.1.2.49 = STRING: TenGigabitEthernet1/1/1" /\
    nth_error lines (1 + 5 * 48 + 3) =
      Some ".1.3.6.1.2.1.2.2.1.5.49 = Gauge32: 10000000000" /\
    nth_error lines (1 + 5 * 52 + 1) =
      Some ".1.3.6.1.2.1.2.2.1.2.53 = STRING: Vlan1" /\
    nth_error lines (1 + 5 * 52 + 2) =
      Some ".1.3.6.1.2.1.2.2.1.3.53 = INTEGER: 53" /\
    List.length lines = 266%nat.
Proof. eexists. split; [vm_compute; reflexivity|]. repeat split. Qed.

(** With a negative port count the uplink names would be shifted: the
    reason the port count is taken not negative above. *)
Example negative_ports_shift_uplinks :
  generate_interface_mib (mkDevice "m" "d" (-1) false false ["u0"; "u1"; "u2"]) =
  Ok [ ".1.3.6.1.2.1.2.1.0 = INTEGER: 3";
       ".1.3.6.1.2.1.2.2.1.1.1 = INTEGER: 1";
       ".1.3.6.1.2.1.2.2.1.2.1 = STRING: u1";
       ".1.3.6.1.2.1.2.2.1.3.1 = INTEGER: 6";
       ".1.3.6.1.2.1.2.2.1.5.1 = Gauge32: 10000000000";
       ".1.3.6.1.2.1.2.2.1.8.1 = INTEGER: 1";
       ".1.3.6.1.2.1.2.2.1.1.2 = INTEGER: 2";
       ".1.3.6.1.2.1.2.2.1.2.2 = STRING: u2";
       ".1.3.6.1.2.1.2.2.1.3.2 = INTEGER: 6";
       ".1.3.6.1.2.1.2.2.1.5.2 = Gauge32: 10000000000";
       ".1.3.6.1.2.1.2.2.1.8.2 = INTEGER: 1";
       ".1.3.6.1.2.1.2.2.1.1.3 = INTEGER: 3";
       ".1.3.6.1.2.1.2.2.1.2.3 = STRING: Vlan1";
       ".1.3.6.1.2.1.2.2.1.3.3 = INTEGER: 53";
       ".1.3.6.1.2.1.2.2.1.5.3 = Gauge32: 1000000000";
       ".1.3.6.1.2.1.2.2.1.8.3 = INTEGER: 1" ].
Proof. reflexivity. Qed.

(** ** The assembled walk *)

Lemma vendor_specific_mib_appends (vendor : string) (d : DeviceInfo)
    (lines : list string) :
  vendor_specific_mib vendor d lines = (lines ++ enterprise_lines vendor d)%list.
Proof.
  unfold enterprise_lines, vendor_specific_mib, extend.
  destruct (String.eqb vendor "cisco"); [reflexivity|].
  destruct (String.eqb vendor "juniper"); [reflexivity|].
  now rewrite app_nil_r.
Qed.

(** The assembler never raises, and its lines are the header, the system
    section, a blank line, the interface section, a blank line and the
    vendor rows, in this order. *)
Lemma walk_lines_sections (vendor : string) (d : DeviceInfo)
    (hostname : string) (date : DateTime) :
  walk_lines vendor d hostname date =
  Ok (header_lines vendor d hostname date
        ++ generate_system_mib d hostname
        ++ [""]
        ++ (ifNumber_line (total_ifs d)
              :: flat_map (entry_rows d) (range 1 (total_ifs d + 1)))
        ++ [""]
        ++ enterprise_lines vendor d)%list.
Proof.
  unfold walk_lines. rewrite generate_interface_mib_rows.
  cbn [rbind]. rewrite vendor_specific_mib_appends.
  unfold append, extend, header_lines. cbn [app].
  repeat rewrite <- app_assoc. reflexivity.
Qed.

(** ** The system section *)

(** C4. The system section is exactly seven lines: sysDescr with the
    description, sysObjectID fixed to [.1.3.6.1.4.1.9.1.1719], a fixed
    sysUpTime and sysContact, sysName with the host name, a fixed
    sysLocation, and sysServices 78.  The vendor is no input of the
    generator, and of the descriptor only the description matters; in the
    assembled walk of any vendor these are the seven lines after the five
    of the header. *)
Theorem system_mib_seven_lines (d : DeviceInfo) (hostname : string) :
  generate_system_mib d hostname =
    [ ".1.3.6.1.2.1.1.1.0 = STRING: " ++ description d;
      ".1.3.6.1.2.1.1.2.0 = OID: .1.3.6.1.4.1.9.1.1719";
      ".1.3.6.1.2.1.1.3.0 = Timeticks: (123456789) 14 days, 6:56:07.89";
      ".1.3.6.1.2.1.1.4.0 = STRING: Network Administrator";
      ".1.3.6.1.2.1.1.5.0 = STRING: " ++ hostname;
      ".1.3.6.1.2.1.1.6.0 = STRING: NiAC-Go Simulated Device";
      ".1.3.6.1.2.1.1.7.0 = INTEGER: 78" ] /\
  List.length (generate_system_mib d hostname) = 7%nat /\
  (forall m p s o u,
     generate_system_mib (mkDevice m (description d) p s o u) hostname =
     generate_system_mib d hostname) /\
  forall vendor date, exists lines,
    walk_lines vendor d hostname date = Ok lines /\
    firstn 7 (skipn 5 lines) = generate_system_mib d hostname.
Proof.
  repeat split. intros vendor date. eexists. split.
  - apply walk_lines_sections.
  - reflexivity.
Qed.

(** ** The vendor rows *)

(** C5. Which vendor rows are emitted is decided by the vendor key alone:
    for ["cisco"] the three entity rows (the model of the descriptor,
    [Chassis], the placeholder serial), the three CPU gauges and the two
    memory-pool integers; for ["juniper"] the chassis row with the model
    and the placeholder serial; for any other key nothing.  Of the
    descriptor only the model is used, the dispatch only appends, and the
    assembler does not raise for any vendor key. *)
Theorem enterprise_section_by_vendor (vendor : string) (d : DeviceInfo) :
  enterprise_lines "cisco" d =
    [ ".1.3.6.1.4.1.9.9.13.1.3.1.3.1 = STRING: " ++ model d;
      ".1.3.6.1.4.1.9.9.13.1.3.1.5.1 = STRING: Chassis";
      ".1.3.6.1.4.1.9.9.13.1.3.1.11.1 = STRING: FOCCXXXXXXX";
      ".1.3.6.1.4.1.9.9.109.1.1.1.1.3.1 = Gauge32: 5";
      ".1.3.6.1.4.1.9.9.109.1.1.1.1.4.1 = Gauge32: 8";
      ".1.3.6.1.4.1.9.9.109.1.1.1.1.5.1 = Gauge32: 10";
      ".1.3.6.1.4.1.9.9.48.1.1.1.5.1 = INTEGER: 4194304000";
      ".1.3.6.1.4.1.9.9.48.1.1.1.6.1 = INTEGER: 12582912000" ] /\
  enterprise_lines "juniper" d =
    [ ".1.3.6.1.4.1.2636.3.1.2.0 = STRING: " ++ model d;
      ".1.3.6.1.4.1.2636.3.1.3.0 = STRING: SNXXXXXXXX" ] /\
  (vendor <> "cisco" -> vendor <> "juniper" -> enterprise_lines vendor d = []) /\
  (forall lines,
     vendor_specific_mib vendor d lines
     = (lines ++ enterprise_lines vendor d)%list) /\
  (forall d', model d' = model d ->
     enterprise_lines vendor d' = enterprise_lines vendor d) /\
  (forall hostname date, exists before,
     walk_lines vendor d hostname date
     = Ok (before ++ enterprise_lines vendor d)%list).
Proof.
  split; [reflexivity|]. split; [reflexivity|]. split; [|split; [|split]].
  - intros Hc Hj. unfold enterprise_lines, vendor_specific_mib.
    apply String.eqb_neq in Hc, Hj. now rewrite Hc, Hj.
  - apply vendor_specific_mib_appends.
  - intros d' Hm. unfold enterprise_lines, vendor_specific_mib,
      generate_cisco_enterprise_mib, generate_juniper_enterprise_mib.
    now rewrite Hm.
  - intros hostname date. rewrite walk_lines_sections.
    eexists. rewrite !app_assoc. reflexivity.
Qed.

Lemma enterprise_section_by_vendor_witness :
  "aruba" <> "cisco" /\ "aruba" <> "juniper" /\
  enterprise_lines "aruba" pa_440 = [].
Proof.
  destruct (enterprise_section_by_vendor "aruba" pa_440)
    as (_ & _ & H & _).
  split; [discriminate|]. split; [discriminate|].
  apply H; discriminate.
Defined.

(** ** What the walk depends on *)

(** C9. Two descriptors that agree on model, description, port count and
    uplinks, whatever their stacking and PoE flags, give the same
    interface section, the same assembled lines and so the same file. *)
Theorem flags_do_not_affect_walk (vendor hostname : string) (date : DateTime)
    (d1 d2 : DeviceInfo) :
  model d1 = model d2 ->
  description d1 = description d2 ->
  ports d1 = ports d2 ->
  uplinks d1 = uplinks d2 ->
  generate_interface_mib d1 = generate_interface_mib d2 /\
  walk_lines vendor d1 hostname date = walk_lines vendor d2 hostname date /\
  rbind (walk_lines vendor d1 hostname date) (fun l => Ok (file_content l)) =
  rbind (walk_lines vendor d2 hostname date) (fun l => Ok (file_content l)).
Proof.
  destruct d1 as [m1 ds1 p1 s1 o1 u1], d2 as [m2 ds2 p2 s2 o2 u2].
  cbn [model description ports uplinks]. intros -> -> -> ->.
  assert (Hif : generate_interface_mib (mkDevice m2 ds2 p2 s1 o1 u2) =
                generate_interface_mib (mkDevice m2 ds2 p2 s2 o2 u2)).
  { rewrite !generate_interface_mib_rows. reflexivity. }
  assert (Hwalk : walk_lines vendor (mkDevice m2 ds2 p2 s1 o1 u2) hostname date =
                  walk_lines vendor (mkDevice m2 ds2 p2 s2 o2 u2) hostname date).
  { rewrite !walk_lines_sections. reflexivity. }
  split; [exact Hif|]. split; [exact Hwalk|]. now rewrite Hwalk.
Qed.

Lemma flags_do_not_affect_walk_witness :
  walk_lines "cisco" c3850_48p "sw01" (mkDateTime 2024 3 7 9 5 0) =
  walk_lines "cisco"
    (mkDevice (model c3850_48p) (description c3850_48p) (ports c3850_48p)
              false false (uplinks c3850_48p))
    "sw01" (mkDateTime 2024 3 7 9 5 0).
Proof.
  apply (flags_do_not_affect_walk "cisco" "sw01" (mkDateTime 2024 3 7 9 5 0)
           c3850_48p
           (mkDevice (model c3850_48p) (description c3850_48p)
                     (ports c3850_48p) false false (uplinks c3850_48p)));
    reflexivity.
Defined.

(** ** Runs of [generate_walk_file] *)

Ltac run_io :=
  unfold bind, lift, print, ret, datetime_now, write_file, after;
  cbn [fst snd now writable stdout files app].

Lemma generate_walk_file_unknown_vendor
    (vendor model_key output_file hostname : string) (w : World) :
  dict_contains DEVICE_TEMPLATES vendor = false ->
  generate_walk_file vendor model_key output_file hostname w =
  (Ok false, after w (vendor_error vendor) []).
Proof.
  intros H. unfold generate_walk_file. rewrite H. cbn [negb].
  run_io. unfold vendor_error. now rewrite <- app_assoc.
Qed.

Lemma generate_walk_file_unknown_model
    (vendor model_key output_file hostname : string) (w : World)
    (models : dict DeviceInfo) :
  dict_get DEVICE_TEMPLATES vendor = Some models ->
  dict_contains models model_key = false ->
  generate_walk_file vendor model_key output_file hostname w =
  (Ok false, after w (model_error vendor model_key models) []).
Proof.
  intros Hv Hm. unfold generate_walk_file, dict_contains at 1, dict_getitem.
  rewrite Hv. cbn [negb]. run_io. rewrite Hm. cbn [negb].
  unfold model_error. now rewrite <- app_assoc.
Qed.

(** A run on a catalog entry: the summary is printed, the lines are
    assembled with the reading of the clock, and either the file is written
    and the report printed, or [open] raises. *)
Lemma generate_walk_file_known
    (vendor model_key output_file hostname : string) (w : World)
    (models : dict DeviceInfo) (d : DeviceInfo) (lines : list string) :
  dict_get DEVICE_TEMPLATES vendor = Some models ->
  dict_get models model_key = Some d ->
  walk_lines vendor d hostname (now w) = Ok lines ->
  generate_walk_file vendor model_key output_file hostname w =
  if writable w output_file
  then (Ok true, after w (summary vendor model_key d ++ report output_file lines)
                         [(output_file, file_content lines)])
  else (Raise OSError, after w (summary vendor model_key d) []).
Proof.
  intros Hv Hm Hl.
  unfold generate_walk_file, dict_contains, dict_getitem.
  rewrite Hv. cbn [negb]. run_io. rewrite Hm. cbn [negb].
  rewrite Hl. cbn [now writable].
  destruct (writable w output_file).
  - cbn [now writable stdout files]. unfold summary, report.
    repeat rewrite <- app_assoc. reflexivity.
  - unfold summary. repeat rewrite <- app_assoc. reflexivity.
Qed.

(** ** Unknown keys *)

Lemma dict_contains_get {V} (d : dict V) (k : string) :
  dict_contains d k = false <-> dict_get d k = None.
Proof.
  unfold dict_contains. destruct (dict_get d k); split; congruence.
Qed.

Lemma dict_get_In {V} (d : dict V) (k : string) (v : V) :
  dict_get d k = Some v -> In (k, v) d.
Proof.
  induction d as [|[k' v'] d IH]; simpl; [discriminate|].
  destruct (String.eqb_spec k k') as [->|_].
  - intros [= ->]. now left.
  - intros H. right. now apply IH.
Qed.

Lemma dict_get_None_keys {V} (d : dict V) (k : string) :
  dict_get d k = None <-> ~ In k (keys d).
Proof.
  induction d as [|[k' v'] d IH]; simpl; [tauto|].
  destruct (String.eqb_spec k k') as [->|Hne].
  - split; [discriminate|]. intros H. exfalso. apply H. now left.
  - rewrite IH. split; [|tauto].
    intros H [Heq|Hin]; [congruence|tauto].
Qed.

(** [main] when the three options are given and not empty. *)
Lemma main_generates (args : Args) (w : World) :
  arg_list args = false ->
  falsy (arg_vendor args) = false ->
  falsy (arg_model args) = false ->
  falsy (arg_output args) = false ->
  main args w =
  bind (generate_walk_file (get_arg (arg_vendor args)) (get_arg (arg_model args))
          (get_arg (arg_output args)) (arg_hostname args))
       (fun success => ret (if success : bool then 0 else 1)) w.
Proof.
  intros Hl Hv Hm Ho. unfold main. now rewrite Hl, Hv, Hm, Ho.
Qed.

(** C6. A vendor key that is not in the catalog makes [generate_walk_file]
    return [False] without raising and without writing a file, after
    printing the error that quotes the key and the line listing the ten
    vendor keys of the catalog; [main] then exits with code 1 (also when it
    prints the usage text instead, because an option is missing or
    empty). *)
Theorem unknown_vendor_reported
    (vendor model_key output_file hostname : string) (w : World) :
  dict_contains DEVICE_TEMPLATES vendor = false ->
  generate_walk_file vendor model_key output_file hostname w =
    (Ok false,
     mkWorld (now w) (writable w)
       (stdout w ++
          [ Print ("Error: Unknown vendor '" ++ vendor ++ "'");
            Print "Available vendors: cisco, juniper, aruba, extreme, paloalto, hpe, arista, dell, fortinet, meraki" ])
       (files w)) /\
  keys DEVICE_TEMPLATES =
    [ "cisco"; "juniper"; "aruba"; "extreme"; "paloalto"; "hpe"; "arista";
      "dell"; "fortinet"; "meraki" ] /\
  (forall args, arg_list args = false -> arg_vendor args = Some vendor ->
     fst (main args w) = Ok 1) /\
  (forall args, arg_list args = false -> arg_vendor args = Some vendor ->
     vendor <> "" -> arg_model args = Some model_key -> model_key <> "" ->
     arg_output args = Some output_file -> output_file <> "" ->
     main args w =
       (Ok 1,
        mkWorld (now w) (writable w)
          (stdout w ++
             [ Print ("Error: Unknown vendor '" ++ vendor ++ "'");
               Print "Available vendors: cisco, juniper, aruba, extreme, paloalto, hpe, arista, dell, fortinet, meraki" ])
          (files w))).
Proof.
  intros H.
  assert (Hrun : forall m o h,
            generate_walk_file vendor m o h w =
            (Ok false,
             mkWorld (now w) (writable w)
               (stdout w ++
                  [ Print ("Error: Unknown vendor '" ++ vendor ++ "'");
                    Print "Available vendors: cisco, juniper, aruba, extreme, paloalto, hpe, arista, dell, fortinet, meraki" ])
               (files w))).
  { intros m o h. now rewrite generate_walk_file_unknown_vendor. }
  split; [apply Hrun|]. split; [reflexivity|]. split.
  - intros args Hl Hv. unfold main. rewrite Hl, Hv.
    destruct (falsy (Some vendor) || falsy (arg_model args)
              || falsy (arg_output args)).
    + reflexivity.
    + unfold bind. cbn [get_arg]. now rewrite Hrun.
  - intros args Hl Hv Hne Hm Hmne Ho Hone.
    rewrite main_generates; try assumption.
    + rewrite Hv, Hm, Ho. unfold bind. cbn [get_arg]. now rewrite Hrun.
    + rewrite Hv. now apply String.eqb_neq.
    + rewrite Hm. now apply String.eqb_neq.
    + rewrite Ho. now apply String.eqb_neq.
Qed.

Lemma unknown_vendor_reported_witness :
  dict_contains DEVICE_TEMPLATES "acme" = false /\
  generate_walk_file "acme" "x1" "x1.walk" "niac-device-01"
    (initial_world (mkDateTime 2024 3 7 9 5 0) (fun _ => true)) =
    (Ok false,
     mkWorld (mkDateTime 2024 3 7 9 5 0) (fun _ => true)
       [ Print "Error: Unknown vendor 'acme'";
         Print "Available vendors: cisco, juniper, aruba, extreme, paloalto, hpe, arista, dell, fortinet, meraki" ]
       []).
Proof.
  split; [reflexivity|].
  apply (unknown_vendor_reported "acme" "x1" "x1.walk" "niac-device-01"
           (initial_world (mkDateTime 2024 3 7 9 5 0) (fun _ => true))).
  reflexivity.
Defined.

Lemma model_keys_disjoint_holds : model_keys_disjoint = true.
Proof. vm_compute. reflexivity. Qed.

Lemma models_of_one_vendor_only (vendor vendor' k : string)
    (models models' : dict DeviceInfo) :
  dict_get DEVICE_TEMPLATES vendor = Some models ->
  dict_get DEVICE_TEMPLATES vendor' = Some models' ->
  vendor' <> vendor ->
  In k (keys models) -> ~ In k (keys models').
Proof.
  intros Hv Hv' Hne Hk Hk'.
  pose proof model_keys_disjoint_holds as Hd. unfold model_keys_disjoint in Hd.
  rewrite forallb_forall in Hd.
  specialize (Hd _ (dict_get_In _ _ _ Hv)). cbn beta iota in Hd.
  rewrite forallb_forall in Hd. specialize (Hd _ Hk).
  apply negb_true_iff in Hd.
  assert (Hex : existsb (String.eqb k) (models_of_other_vendors vendor) = true);
    [|congruence].
  apply existsb_exists. exists k. split; [|apply String.eqb_refl].
  unfold models_of_other_vendors. apply in_flat_map.
  exists (vendor', models'). split; [now apply dict_get_In|].
  apply String.eqb_neq in Hne. now rewrite Hne.
Qed.

(** C7. A vendor key of the catalog with a model key that is not among its
    models makes [generate_walk_file] return [False] without raising and
    without writing a file, after printing the error that quotes both keys
    and the line listing the model keys of that vendor; none of the keys
    listed is a model of another vendor; [main] then exits with code 1. *)
Theorem unknown_model_reported
    (vendor model_key output_file hostname : string) (w : World)
    (models : dict DeviceInfo) :
  dict_get DEVICE_TEMPLATES vendor = Some models ->
  dict_contains models model_key = false ->
  generate_walk_file vendor model_key output_file hostname w =
    (Ok false,
     mkWorld (now w) (writable w)
       (stdout w ++
          [ Print ("Error: Unknown model '" ++ model_key ++ "' for vendor '"
                     ++ vendor ++ "'");
            Print ("Available models: " ++ join ", " (keys models)) ])
       (files w)) /\
  (forall k vendor' models',
     In k (keys models) -> vendor' <> vendor ->
     dict_get DEVICE_TEMPLATES vendor' = Some models' ->
     ~ In k (keys models')) /\
  (forall args, arg_list args = false -> arg_vendor args = Some vendor ->
     arg_model args = Some model_key ->
     fst (main args w) = Ok 1) /\
  (forall args, arg_list args = false -> arg_vendor args = Some vendor ->
     arg_model args = Some model_key -> model_key <> "" ->
     arg_output args = Some output_file -> output_file <> "" ->
     main args w =
       (Ok 1,
        mkWorld (now w) (writable w)
          (stdout w ++
             [ Print ("Error: Unknown model '" ++ model_key
                        ++ "' for vendor '" ++ vendor ++ "'");
               Print ("Available models: " ++ join ", " (keys models)) ])
          (files w))).
Proof.
  intros Hv Hm.
  assert (Hrun : forall o h,
            generate_walk_file vendor model_key o h w =
            (Ok false,
             mkWorld (now w) (writable w)
               (stdout w ++
                  [ Print ("Error: Unknown model '" ++ model_key
                             ++ "' for vendor '" ++ vendor ++ "'");
                    Print ("Available models: " ++ join ", " (keys models)) ])
               (files w))).
  { intros o h.
    now rewrite (generate_walk_file_unknown_model _ _ _ _ _ models). }
  split; [apply Hrun|]. split; [|split].
  - intros k vendor' models' Hk Hne Hv'.
    now apply (models_of_one_vendor_only vendor vendor' k models models').
  - intros args Hl Hav Ham. unfold main. rewrite Hl, Hav, Ham.
    destruct (falsy (Some vendor) || falsy (Some model_key)
              || falsy (arg_output args)).
    + reflexivity.
    + unfold bind. cbn [get_arg]. now rewrite Hrun.
  - intros args Hl Hav Ham Hmne Hao Hone.
    assert (Hvne : vendor <> "").
    { intros ->. discriminate Hv. }
    rewrite main_generates; try assumption.
    + rewrite Hav, Ham, Hao. unfold bind. cbn [get_arg]. now rewrite Hrun.
    + rewrite Hav. now apply String.eqb_neq.
    + rewrite Ham. now apply String.eqb_neq.
    + rewrite Hao. now apply String.eqb_neq.
Qed.

Lemma unknown_model_reported_witness :
  dict_get DEVICE_TEMPLATES "paloalto" = Some [("pa-440", pa_440)] /\
  dict_contains [("pa-440", pa_440)] "x1" = false /\
  generate_walk_file "paloalto" "x1" "x1.walk" "niac-device-01"
    (initial_world (mkDateTime 2024 3 7 9 5 0) (fun _ => true)) =
    (Ok false,
     mkWorld (mkDateTime 2024 3 7 9 5 0) (fun _ => true)
       [ Print "Error: Unknown model 'x1' for vendor 'paloalto'";
         Print "Available models: pa-440" ]
       []).
Proof.
  split; [reflexivity|]. split; [reflexivity|].
  apply (unknown_model_reported "paloalto" "x1" "x1.walk" "niac-device-01"
           (initial_world (mkDateTime 2024 3 7 9 5 0) (fun _ => true))
           [("pa-440", pa_440)]); reflexivity.
Defined.

(** ** The clock *)

(** Two runs for the same vendor, model and host name, one second apart,
    assemble different lines and write different files. *)
Lemma walk_differs_between_runs :
  walk_lines "cisco" c3850_48p "niac-device-01" (mkDateTime 2024 3 7 9 5 0) <>
  walk_lines "cisco" c3850_48p "niac-device-01" (mkDateTime 2024 3 7 9 5 1) /\
  files (snd (generate_walk_file "cisco" "c3850-48p" "c3850.walk" "niac-device-01"
                (initial_world (mkDateTime 2024 3 7 9 5 0) (fun _ => true)))) <>
  files (snd (generate_walk_file "cisco" "c3850-48p" "c3850.walk" "niac-device-01"
                (initial_world (mkDateTime 2024 3 7 9 5 1) (fun _ => true)))).
Proof.
  split; intros H.
  - apply (f_equal (fun r => match r with
                             | Ok l => nth_error l 2
                             | Raise _ => None
                             end)) in H.
    vm_compute in H. discriminate H.
  - apply (f_equal (fun fs => match fs with
                              | (_, content) :: _ => String.substring 83 27 content
                              | [] => ""
                              end)) in H.
    vm_compute in H. discriminate H.
Qed.

Example date_line_of_a_run :
  rbind (walk_lines "cisco" c3850_48p "niac-device-01" (mkDateTime 2024 3 7 9 5 0))
        (fun l => Ok (nth_error l 2)) = Ok (Some "# Date: 2024-03-07 09:05:00").
Proof. vm_compute. reflexivity. Qed.

(** A catalog entry is assembled without an exception. *)
Lemma walk_lines_ok (vendor : string) (d : DeviceInfo) (hostname : string)
    (date : DateTime) :
  exists lines, walk_lines vendor d hostname date = Ok lines.
Proof. eexists. apply walk_lines_sections. Qed.

(** C3, amended. The clock is an input of the assembler: its reading is
    the third line of the header.  Two runs for the same vendor, model,
    output path and host name that read the same clock (and find the path
    equally writable) return the same value, print the same text and write
    the same file; and for any two readings the assembled lines differ at
    most in that third line, [# Date: ...]. *)
Theorem walk_deterministic_for_fixed_clock
    (vendor model_key output_file hostname : string) (w1 w2 : World) :
  now w1 = now w2 ->
  writable w1 output_file = writable w2 output_file ->
  stdout w1 = stdout w2 ->
  files w1 = files w2 ->
  (fst (generate_walk_file vendor model_key output_file hostname w1) =
   fst (generate_walk_file vendor model_key output_file hostname w2) /\
   stdout (snd (generate_walk_file vendor model_key output_file hostname w1)) =
   stdout (snd (generate_walk_file vendor model_key output_file hostname w2)) /\
   files (snd (generate_walk_file vendor model_key output_file hostname w1)) =
   files (snd (generate_walk_file vendor model_key output_file hostname w2))) /\
  forall d date1 date2, exists before rest,
    List.length before = 2%nat /\
    walk_lines vendor d hostname date1 =
      Ok (before ++ ("# Date: " ++ strftime date1)%string :: rest)%list /\
    walk_lines vendor d hostname date2 =
      Ok (before ++ ("# Date: " ++ strftime date2)%string :: rest)%list.
Proof.
  intros Hnow Hwr Hout Hfiles. split.
  - destruct (dict_get DEVICE_TEMPLATES vendor) as [models|] eqn:Hv.
    + destruct (dict_get models model_key) as [d|] eqn:Hm.
      * destruct (walk_lines_ok vendor d hostname (now w1)) as [lines Hl].
        rewrite (generate_walk_file_known _ _ _ _ w1 models d lines Hv Hm Hl).
        rewrite Hnow in Hl.
        rewrite (generate_walk_file_known _ _ _ _ w2 models d lines Hv Hm Hl).
        rewrite Hwr. destruct (writable w2 output_file);
          unfold after; cbn [fst snd stdout files];
          now rewrite Hout, Hfiles.
      * apply dict_contains_get in Hm.
        rewrite !(generate_walk_file_unknown_model _ _ _ _ _ models Hv Hm).
        unfold after; cbn [fst snd stdout files]. now rewrite Hout, Hfiles.
    + apply dict_contains_get in Hv.
      rewrite !(generate_walk_file_unknown_vendor _ _ _ _ _ Hv).
      unfold after; cbn [fst snd stdout files]. now rewrite Hout, Hfiles.
  - intros d date1 date2. rewrite !walk_lines_sections.
    exists [ "# SNMP Walk File for " ++ title vendor ++ " " ++ model d;
             "# Generated by NiAC-Go walk file generator" ].
    eexists. split; [reflexivity|]. split; reflexivity.
Qed.

Lemma walk_deterministic_for_fixed_clock_witness :
  files (snd (generate_walk_file "cisco" "c3850-48p" "c3850.walk" "sw01"
                (initial_world (mkDateTime 2024 3 7 9 5 0) (fun _ => true)))) =
  files (snd (generate_walk_file "cisco" "c3850-48p" "c3850.walk" "sw01"
                (initial_world (mkDateTime 2024 3 7 9 5 0)
                               (fun path => String.eqb path "c3850.walk")))).
Proof.
  apply (walk_deterministic_for_fixed_clock "cisco" "c3850-48p" "c3850.walk"
           "sw01"
           (initial_world (mkDateTime 2024 3 7 9 5 0) (fun _ => true))
           (initial_world (mkDateTime 2024 3 7 9 5 0)
                          (fun path => String.eqb path "c3850.walk")));
    reflexivity.
Defined.

(** ** The format of the file *)

(** *** Strings *)

Lemma append_assoc (a b c : string) : (a ++ b) ++ c = a ++ b ++ c.
Proof. induction a as [|x a IH]; simpl; [reflexivity|now rewrite IH]. Qed.

Lemma string_forall_app (p : ascii -> bool) (a b : string) :
  string_forall p (a ++ b) = string_forall p a && string_forall p b.
Proof.
  induction a as [|x a IH]; simpl; [reflexivity|].
  now rewrite IH, andb_assoc.
Qed.

Lemma string_forall_impl (p q : ascii -> bool) (s : string) :
  (forall c, p c = true -> q c = true) ->
  string_forall p s = true -> string_forall q s = true.
Proof.
  intros Hpq. induction s as [|x s IH]; simpl; [reflexivity|].
  intros H. apply andb_true_iff in H. destruct H as [Hx Hs].
  apply andb_true_iff. split; [now apply Hpq|now apply IH].
Qed.

Lemma no_newline_app (a b : string) :
  no_newline (a ++ b) = no_newline a && no_newline b.
Proof. apply string_forall_app. Qed.

Lemma is_digit_not_newline (c : ascii) :
  is_digit c = true -> negb (is_newline c) = true.
Proof.
  unfold is_newline. destruct (Ascii.eqb_spec c (ascii_of_nat 10)) as [->|_];
    [discriminate|reflexivity].
Qed.

(** *** Decimal numbers *)

Lemma string_of_uint_digits (u : Decimal.uint) :
  string_forall is_digit (NilEmpty.string_of_uint u) = true.
Proof. induction u; simpl; auto. Qed.

(** The decimal form of a number that is not negative is a non-empty
    string of digits. *)
Lemma str_int_digits (z : Z) :
  0 <= z -> string_forall is_digit (str_int z) = true /\ str_int z <> "".
Proof.
  intros Hz. unfold str_int. destruct z as [|p|p]; [split; [reflexivity|discriminate]| |lia].
  cbn [Z.to_int NilZero.string_of_int NilZero.string_of_uint].
  pose proof (Unsigned.to_uint_nonnil p) as Hnil.
  destruct (Pos.to_uint p) eqn:E; try congruence;
    (split; [apply string_of_uint_digits|discriminate]).
Qed.

Lemma str_int_no_newline (z : Z) : no_newline (str_int z) = true.
Proof.
  assert (Hu : forall u, no_newline (NilZero.string_of_uint u) = true).
  { intros u. unfold NilZero.string_of_uint.
    destruct u; try reflexivity;
      apply (string_forall_impl is_digit _ _ is_digit_not_newline),
            string_of_uint_digits. }
  unfold str_int. destruct (Z.to_int z); cbn [NilZero.string_of_int].
  - apply Hu.
  - unfold no_newline. cbn [string_forall]. apply Hu.
Qed.

Lemma repeat_char_no_newline (c : ascii) (n : nat) :
  negb (is_newline c) = true -> no_newline (repeat_char c n) = true.
Proof.
  intros Hc. induction n as [|n IH]; [reflexivity|].
  unfold no_newline. cbn [repeat_char string_forall]. now rewrite Hc.
Qed.

Lemma strftime_no_newline (date : DateTime) : no_newline (strftime date) = true.
Proof.
  unfold strftime, rjust.
  repeat (rewrite no_newline_app
          || rewrite str_int_no_newline
          || rewrite repeat_char_no_newline by reflexivity).
  reflexivity.
Qed.

(** *** Recognising an entry *)

Lemma span_app (p : ascii -> bool) (a b : string) :
  string_forall p a = true ->
  (match b with EmptyString => true | String c _ => negb (p c) end) = true ->
  span p (a ++ b) = (a, b).
Proof.
  intros Ha Hb. induction a as [|x a IH]; cbn [String.append].
  - destruct b as [|c b]; [reflexivity|]. cbn [span].
    apply negb_true_iff in Hb. now rewrite Hb.
  - cbn [string_forall] in Ha. apply andb_true_iff in Ha.
    destruct Ha as [Hx Ha]. cbn [span]. now rewrite Hx, (IH Ha).
Qed.

Lemma strip_prefix_app (p s : string) : strip_prefix p (p ++ s) = Some s.
Proof.
  induction p as [|x p IH]; cbn [String.append strip_prefix].
  - now destruct s.
  - now rewrite Ascii.eqb_refl.
Qed.

Lemma oid_groups_chars (after_dot : bool) (s : string) :
  oid_groups after_dot s = true -> string_forall is_oid_char s = true.
Proof.
  revert after_dot. induction s as [|c s IH]; intros b; cbn; [reflexivity|].
  unfold is_oid_char at 1.
  destruct (Ascii.eqb c "."); intros H; apply andb_true_iff in H;
    destruct H as [H1 H2]; rewrite (IH _ H2).
  - now rewrite orb_true_r.
  - now rewrite H1.
Qed.

Lemma oid_groups_digits (after_dot : bool) (s : string) :
  string_forall is_digit s = true -> s <> "" -> oid_groups after_dot s = true.
Proof.
  revert after_dot. induction s as [|c s IH]; intros b Hd Hne; [congruence|].
  cbn [string_forall] in Hd. apply andb_true_iff in Hd. destruct Hd as [Hc Hs].
  cbn [oid_groups].
  destruct (Ascii.eqb_spec c ".") as [->|_]; [discriminate Hc|].
  rewrite Hc. cbn [andb].
  destruct s as [|c' s']; [reflexivity|]. now apply IH.
Qed.

(** An OID, a tag and a value without newline make an entry. *)
Lemma is_oid_entry_intro (oid tag value : string) :
  is_oid oid = true ->
  string_forall is_tag_char tag = true -> tag <> "" ->
  no_newline value = true ->
  is_oid_entry (oid ++ " = " ++ tag ++ ": " ++ value) = true.
Proof.
  intros Hoid Htag Hne Hval. unfold is_oid_entry.
  assert (Hchars : string_forall is_oid_char oid = true).
  { unfold is_oid in Hoid. apply andb_true_iff in Hoid.
    now apply (oid_groups_chars false). }
  rewrite (span_app is_oid_char oid _ Hchars) by reflexivity.
  rewrite Hoid. cbn [andb].
  rewrite (strip_prefix_app " = ").
  rewrite (span_app is_tag_char tag _ Htag) by reflexivity.
  apply String.eqb_neq in Hne. rewrite Hne. cbn [negb andb].
  now rewrite (strip_prefix_app ": ").
Qed.

Lemma oid_groups_index (after_dot : bool) (column digits : string) :
  oid_groups after_dot (column ++ "0") = true ->
  string_forall is_digit digits = true -> digits <> "" ->
  oid_groups after_dot (column ++ digits) = true.
Proof.
  intros Hcol Hd Hne. revert after_dot Hcol.
  induction column as [|c column IH]; intros b;
    cbn [String.append oid_groups].
  - intros _. now apply oid_groups_digits.
  - destruct (Ascii.eqb c "."); intros H; apply andb_true_iff in H;
      destruct H as [H1 H2]; rewrite H1; cbn [andb]; now apply IH.
Qed.

(** *** The assembled lines are walk lines *)

Lemma oid_char_not_newline (c : ascii) :
  is_oid_char c = true -> negb (is_newline c) = true.
Proof.
  unfold is_newline. destruct (Ascii.eqb_spec c (ascii_of_nat 10)) as [->|_];
    [discriminate|reflexivity].
Qed.

Lemma tag_char_not_newline (c : ascii) :
  is_tag_char c = true -> negb (is_newline c) = true.
Proof.
  unfold is_newline. destruct (Ascii.eqb_spec c (ascii_of_nat 10)) as [->|_];
    [discriminate|reflexivity].
Qed.

Lemma entry_is_line (oid tag value : string) :
  is_oid oid = true ->
  string_forall is_tag_char tag = true -> tag <> "" ->
  no_newline value = true ->
  is_line (oid ++ " = " ++ tag ++ ": " ++ value) = true.
Proof.
  intros Hoid Htag Hne Hval. unfold is_line, is_walk_line.
  rewrite is_oid_entry_intro by assumption. rewrite orb_true_r. cbn [andb].
  rewrite !no_newline_app, Hval.
  unfold is_oid in Hoid. apply andb_true_iff in Hoid. destruct Hoid as [_ Hgr].
  apply oid_groups_chars in Hgr.
  unfold no_newline at 1.
  rewrite (string_forall_impl _ _ _ oid_char_not_newline Hgr).
  unfold no_newline at 2.
  rewrite (string_forall_impl _ _ _ tag_char_not_newline Htag).
  reflexivity.
Qed.

Lemma indexed_entry_is_line (column : string) (i : Z) (tag value : string) :
  is_oid (column ++ "0") = true -> 0 <= i ->
  string_forall is_tag_char tag = true -> tag <> "" ->
  no_newline value = true ->
  is_line (column ++ str_int i ++ " = " ++ tag ++ ": " ++ value) = true.
Proof.
  intros Hcol Hi Htag Hne Hval.
  rewrite <- append_assoc. apply entry_is_line; try assumption.
  destruct (str_int_digits i Hi) as [Hd Hnonempty].
  unfold is_oid in *. apply andb_true_iff in Hcol. destruct Hcol as [Hdot Hgr].
  apply andb_true_iff. split; [|now apply oid_groups_index].
  destruct column as [|a column]; [discriminate Hdot|].
  unfold startswith in *. cbn [String.append String.prefix] in *.
  destruct (ascii_dec "." a); [|discriminate Hdot].
  now destruct (column ++ str_int i).
Qed.

Lemma comment_is_line (text : string) :
  no_newline text = true -> is_line ("#" ++ text) = true.
Proof.
  intros H. unfold is_line, is_walk_line, is_comment, startswith.
  cbn [String.append String.prefix].
  destruct (ascii_dec "#" "#") as [_|Hne]; [|congruence].
  assert (Hp : String.prefix "" text = true) by now destruct text.
  rewrite Hp. cbn [orb andb]. unfold no_newline. cbn [string_forall].
  exact H.
Qed.

Lemma forallb_flat_map {A B} (p : B -> bool) (f : A -> list B) (l : list A) :
  (forall x, In x l -> forallb p (f x) = true) ->
  forallb p (flat_map f l) = true.
Proof.
  induction l as [|x l IH]; intros H; simpl; [reflexivity|].
  rewrite forallb_app, (H x) by now left.
  apply IH. intros y Hy. apply H. now right.
Qed.

Lemma nth_no_newline (l : list string) (k : nat) :
  forallb no_newline l = true -> no_newline (nth k l "") = true.
Proof.
  revert k. induction l as [|x l IH]; intros [|k] H; try reflexivity;
    simpl in H; apply andb_true_iff in H; destruct H as [Hx Hl].
  - exact Hx.
  - now apply IH.
Qed.

(** Splits [forallb p [x1; ...; xn] = true] into a goal for each element. *)
Ltac each_line :=
  repeat match goal with
         | |- (_ && _)%bool = true => apply andb_true_iff; split
         end;
  try match goal with
      | |- true = true => reflexivity
      end.

Section WalkLines.

Variables (vendor hostname : string) (d : DeviceInfo) (date : DateTime).
Hypothesis vendor_clean : no_newline (title vendor) = true.
Hypothesis hostname_clean : no_newline hostname = true.
Hypothesis model_clean : no_newline (model d) = true.
Hypothesis description_clean : no_newline (description d) = true.
Hypothesis uplinks_clean : forallb no_newline (uplinks d) = true.

Lemma header_lines_ok :
  forallb is_line (header_lines vendor d hostname date) = true.
Proof.
  unfold header_lines. cbn [forallb]. each_line.
  - apply (comment_is_line
             (" SNMP Walk File for " ++ title vendor ++ " " ++ model d)).
    now rewrite !no_newline_app, vendor_clean, model_clean.
  - reflexivity.
  - apply (comment_is_line (" Date: " ++ strftime date)).
    now rewrite no_newline_app, strftime_no_newline.
  - apply (comment_is_line (" Hostname: " ++ hostname)).
    now rewrite no_newline_app, hostname_clean.
  - reflexivity.
Qed.

Lemma system_lines_ok :
  forallb is_line (generate_system_mib d hostname) = true.
Proof.
  unfold generate_system_mib, append. cbn [app forallb]. each_line;
    try reflexivity.
  - apply (entry_is_line ".1.3.6.1.2.1.1.1.0" "STRING" (description d));
      try reflexivity; try discriminate; exact description_clean.
  - apply (entry_is_line ".1.3.6.1.2.1.1.5.0" "STRING" hostname);
      try reflexivity; try discriminate; exact hostname_clean.
Qed.

Lemma entry_rows_ok (i : Z) :
  1 <= i -> forallb is_line (entry_rows d i) = true.
Proof.
  intros Hi. assert (Hi0 : 0 <= i) by lia.
  pose proof (str_int_no_newline i) as Hn.
  assert (Hrow : forall column tag value,
            is_oid (column ++ "0") = true ->
            string_forall is_tag_char tag = true -> tag <> "" ->
            no_newline value = true ->
            is_line (column ++ str_int i ++ " = " ++ tag ++ ": " ++ value) = true).
  { intros. now apply indexed_entry_is_line. }
  unfold entry_rows.
  destruct (i <=? ports d); [|destruct (i <=? ports d + len (uplinks d))];
    cbn [forallb]; each_line.
  - apply (Hrow ".1.3.6.1.2.1.2.2.1.1." "INTEGER" (str_int i));
      try reflexivity; try discriminate; assumption.
  - apply (Hrow ".1.3.6.1.2.1.2.2.1.2." "STRING"
             ("GigabitEthernet1/0/" ++ str_int i));
      try reflexivity; try discriminate.
    now rewrite no_newline_app, Hn.
  - apply (Hrow ".1.3.6.1.2.1.2.2.1.3." "INTEGER" "6");
      try reflexivity; discriminate.
  - apply (Hrow ".1.3.6.1.2.1.2.2.1.5." "Gauge32" "1000000000");
      try reflexivity; discriminate.
  - apply (Hrow ".1.3.6.1.2.1.2.2.1.8." "INTEGER" "1");
      try reflexivity; discriminate.
  - apply (Hrow ".1.3.6.1.2.1.2.2.1.1." "INTEGER" (str_int i));
      try reflexivity; try discriminate; assumption.
  - apply (Hrow ".1.3.6.1.2.1.2.2.1.2." "STRING"
             (nth (Z.to_nat (i - ports d - 1)) (uplinks d) ""));
      try reflexivity; try discriminate.
    apply nth_no_newline, uplinks_clean.
  - apply (Hrow ".1.3.6.1.2.1.2.2.1.3." "INTEGER" "6");
      try reflexivity; discriminate.
  - apply (Hrow ".1.3.6.1.2.1.2.2.1.5." "Gauge32" "10000000000");
      try reflexivity; discriminate.
  - apply (Hrow ".1.3.6.1.2.1.2.2.1.8." "INTEGER" "1");
      try reflexivity; discriminate.
  - apply (Hrow ".1.3.6.1.2.1.2.2.1.1." "INTEGER" (str_int i));
      try reflexivity; try discriminate; assumption.
  - apply (Hrow ".1.3.6.1.2.1.2.2.1.2." "STRING" "Vlan1");
      try reflexivity; discriminate.
  - apply (Hrow ".1.3.6.1.2.1.2.2.1.3." "INTEGER" "53");
      try reflexivity; discriminate.
  - apply (Hrow ".1.3.6.1.2.1.2.2.1.5." "Gauge32" "1000000000");
      try reflexivity; discriminate.
  - apply (Hrow ".1.3.6.1.2.1.2.2.1.8." "INTEGER" "1");
      try reflexivity; discriminate.
Qed.

Lemma interface_lines_ok :
  forallb is_line
    (ifNumber_line (total_ifs d)
       :: flat_map (entry_rows d) (range 1 (total_ifs d + 1))) = true.
Proof.
  cbn [forallb]. apply andb_true_iff. split.
  - apply (entry_is_line ".1.3.6.1.2.1.2.1.0" "INTEGER" (str_int (total_ifs d)));
      try reflexivity; try discriminate. apply str_int_no_newline.
  - apply forallb_flat_map. intros i Hi. apply range_In in Hi.
    apply entry_rows_ok. lia.
Qed.

Lemma enterprise_lines_ok :
  forallb is_line (enterprise_lines vendor d) = true.
Proof.
  unfold enterprise_lines, vendor_specific_mib, extend,
    generate_cisco_enterprise_mib, generate_juniper_enterprise_mib, append.
  destruct (String.eqb vendor "cisco"); [|destruct (String.eqb vendor "juniper")];
    cbn [app forallb]; [| |reflexivity]; each_line; try reflexivity.
  - apply (entry_is_line ".1.3.6.1.4.1.9.9.13.1.3.1.3.1" "STRING" (model d));
      try reflexivity; try discriminate; exact model_clean.
  - apply (entry_is_line ".1.3.6.1.4.1.2636.3.1.2.0" "STRING" (model d));
      try reflexivity; try discriminate; exact model_clean.
Qed.

(** Every assembled line is a comment, blank or an entry, and holds no
    newline. *)
Lemma walk_lines_are_lines :
  exists lines,
    walk_lines vendor d hostname date = Ok lines /\
    forallb is_line lines = true.
Proof.
  eexists. split; [apply walk_lines_sections|].
  rewrite !forallb_app.
  rewrite header_lines_ok, system_lines_ok, interface_lines_ok,
    enterprise_lines_ok.
  reflexivity.
Qed.

End WalkLines.

(** *** The file and its lines *)

Lemma split_newlines_line (l rest : string) :
  no_newline l = true ->
  split_newlines (l ++ LF ++ rest) = l :: split_newlines rest.
Proof.
  intros Hl. induction l as [|c l IH]; [reflexivity|].
  unfold no_newline in Hl. cbn [string_forall] in Hl.
  apply andb_true_iff in Hl. destruct Hl as [Hc Hl].
  apply negb_true_iff in Hc.
  cbn [String.append split_newlines]. rewrite Hc.
  fold (String.append l (LF ++ rest)). now rewrite (IH Hl).
Qed.

(** Splitting the bytes written gives the lines back, and an empty piece
    after the last newline. *)
Lemma split_file_content (x : string) (xs : list string) :
  forallb no_newline (x :: xs) = true ->
  split_newlines (file_content (x :: xs)) = ((x :: xs) ++ [""])%list.
Proof.
  unfold file_content, join. revert x.
  induction xs as [|y ys IH]; intros x H;
    cbn [forallb] in H; apply andb_true_iff in H; destruct H as [Hx Hxs].
  - cbn [String.concat app].
    change (x ++ LF) with (x ++ LF ++ ""). now rewrite split_newlines_line.
  - change (String.concat LF (x :: y :: ys))
      with (x ++ LF ++ String.concat LF (y :: ys)).
    rewrite !append_assoc, split_newlines_line by assumption.
    rewrite (IH y Hxs). reflexivity.
Qed.

Lemma forallb_impl {A} (p q : A -> bool) (l : list A) :
  (forall x, p x = true -> q x = true) ->
  forallb p l = true -> forallb q l = true.
Proof.
  intros Hpq. induction l as [|x l IH]; simpl; [reflexivity|].
  intros H. apply andb_true_iff in H. destruct H as [Hx Hl].
  now rewrite (Hpq x Hx), (IH Hl).
Qed.

(** *** The catalog holds no newline *)

Lemma catalog_clean_holds : catalog_clean = true.
Proof. vm_compute. reflexivity. Qed.

Lemma catalog_entry_clean (vendor model_key : string)
    (models : dict DeviceInfo) (d : DeviceInfo) :
  dict_get DEVICE_TEMPLATES vendor = Some models ->
  dict_get models model_key = Some d ->
  no_newline (title vendor) = true /\ no_newline (model d) = true /\
  no_newline (description d) = true /\ forallb no_newline (uplinks d) = true.
Proof.
  intros Hv Hm. pose proof catalog_clean_holds as H.
  unfold catalog_clean in H. rewrite forallb_forall in H.
  specialize (H _ (dict_get_In _ _ _ Hv)). cbn beta iota in H.
  apply andb_true_iff in H. destruct H as [Ht H].
  rewrite forallb_forall in H.
  specialize (H _ (dict_get_In _ _ _ Hm)). cbn beta iota in H.
  apply andb_true_iff in H. destruct H as [H Hu].
  apply andb_true_iff in H. destruct H as [Hmo Hde].
  auto.
Qed.

Lemma Ok_inj {A} (a b : A) : Ok a = Ok b -> a = b.
Proof. congruence. Qed.

(** A run that returns [True] found both keys in the catalog, assembled
    the lines and could open the file. *)
Lemma generate_walk_file_success
    (vendor model_key output_file hostname : string) (w w' : World) :
  generate_walk_file vendor model_key output_file hostname w = (Ok true, w') ->
  exists models d lines,
    dict_get DEVICE_TEMPLATES vendor = Some models /\
    dict_get models model_key = Some d /\
    walk_lines vendor d hostname (now w) = Ok lines /\
    writable w output_file = true /\
    w' = after w (summary vendor model_key d ++ report output_file lines)
               [(output_file, file_content lines)].
Proof.
  intros Hrun.
  destruct (dict_get DEVICE_TEMPLATES vendor) as [models|] eqn:Hv.
  - destruct (dict_get models model_key) as [d|] eqn:Hm.
    + destruct (walk_lines_ok vendor d hostname (now w)) as [lines Hl].
      rewrite (generate_walk_file_known _ _ _ _ w models d lines Hv Hm Hl)
        in Hrun.
      destruct (writable w output_file) eqn:Hw; [|discriminate Hrun].
      injection Hrun as <-. now exists models, d, lines.
    + apply dict_contains_get in Hm.
      rewrite (generate_walk_file_unknown_model _ _ _ _ _ models Hv Hm) in Hrun.
      discriminate Hrun.
  - apply dict_contains_get in Hv.
    rewrite (generate_walk_file_unknown_vendor _ _ _ _ _ Hv) in Hrun.
    discriminate Hrun.
Qed.

(** *** The format on runs *)

Example ends_with_one_newline_examples :
  map ends_with_one_newline
      [ ""; "a"; LF; "a" ++ LF; LF ++ LF; "a" ++ LF ++ LF; "a" ++ LF ++ "b";
        "a" ++ LF ++ "b" ++ LF ]
  = [ false; false; true; true; false; false; false; true ].
Proof. reflexivity. Qed.

Example is_walk_line_examples :
  map is_walk_line
      [ "# Hostname: sw01"; "#"; ""; ".1.3.6.1.2.1.1.7.0 = INTEGER: 78";
        ".1.3.6.1.2.1.1.5.0 = STRING: "; "01"; "1.3.6 = INTEGER: 78";
        ".1.3.6 = : 78"; ".1..3 = INTEGER: 78"; ".1.3.6 INTEGER: 78" ]
  = [ true; true; true; true; true; false; false; false; false; false ].
Proof. reflexivity. Qed.

(** The format fails for two kinds of run that return [True].  For a vendor
    without enterprise rows (here [aruba]) every line is a walk line, but
    the last line is the blank separator, so the file ends with two
    newlines.  For a host name that holds a newline the file has a line
    that is neither a comment, blank nor an entry. *)
Lemma walk_file_format_fails :
  (option_map is_walk_file
     (written_by "aruba" "cx6300-48g" "niac-device-01"
                 (mkDateTime 2024 3 7 9 5 0)) = Some false /\
   option_map ends_with_one_newline
     (written_by "aruba" "cx6300-48g" "niac-device-01"
                 (mkDateTime 2024 3 7 9 5 0)) = Some false /\
   option_map (fun content => rev (firstn 3 (rev (split_newlines content))))
     (written_by "aruba" "cx6300-48g" "niac-device-01"
                 (mkDateTime 2024 3 7 9 5 0))
   = Some [".1.3.6.1.2.1.2.2.1.8.53 = INTEGER: 1"; ""; ""]) /\
  (option_map is_walk_file
     (written_by "cisco" "c3850-48p" ("sw" ++ LF ++ "01")
                 (mkDateTime 2024 3 7 9 5 0)) = Some false /\
   option_map (fun content =>
                 filter (fun l => negb (is_walk_line l))
                        (removelast (split_newlines content)))
     (written_by "cisco" "c3850-48p" ("sw" ++ LF ++ "01")
                 (mkDateTime 2024 3 7 9 5 0))
   = Some ["01"; "01"]).
Proof. vm_compute. repeat split. Qed.

(** C8, amended. When a run returns [True] for a host name without
    newline, the file written is the assembled lines, each followed by one
    newline (so it ends with a newline); every line is a comment, blank or
    an entry [<OID> = <TypeTag>: <value>]; and for the vendors [cisco] and
    [juniper] the last line is an entry, so the file has the format with a
    single newline at its end. *)
Theorem walk_file_format
    (vendor model_key output_file hostname : string) (w w' : World) :
  no_newline hostname = true ->
  generate_walk_file vendor model_key output_file hostname w = (Ok true, w') ->
  exists d lines,
    walk_lines vendor d hostname (now w) = Ok lines /\
    files w' = (output_file, file_content lines) :: files w /\
    split_newlines (file_content lines) = (lines ++ [""])%list /\
    forallb is_walk_line lines = true /\
    forallb no_newline lines = true /\
    (vendor = "cisco" \/ vendor = "juniper" ->
     is_walk_file (file_content lines) = true).
Proof.
  intros Hhost Hrun.
  destruct (generate_walk_file_success _ _ _ _ _ _ Hrun)
    as (models & d & lines & Hv & Hm & Hl & Hw & ->).
  destruct (catalog_entry_clean _ _ _ _ Hv Hm) as (Ht & Hmo & Hde & Hup).
  destruct (walk_lines_are_lines vendor hostname d (now w) Ht Hhost Hmo Hde Hup)
    as (lines' & Hl' & Hok).
  assert (lines' = lines) as -> by congruence.
  assert (Hwalk : forallb is_walk_line lines = true).
  { apply (forallb_impl is_line); [|exact Hok].
    intros l H. unfold is_line in H. now apply andb_true_iff in H. }
  assert (Hclean : forallb no_newline lines = true).
  { apply (forallb_impl is_line); [|exact Hok].
    intros l H. unfold is_line in H. now apply andb_true_iff in H. }
  assert (Hsplit : split_newlines (file_content lines) = (lines ++ [""])%list).
  { rewrite walk_lines_sections in Hl. apply Ok_inj in Hl.
    destruct lines as [|x xs]; [discriminate Hl|].
    now apply split_file_content. }
  exists d, lines. repeat (split; [assumption || reflexivity|]).
  intros Hvendor. unfold is_walk_file, ends_with_one_newline.
  rewrite Hsplit, removelast_last, Hwalk, rev_unit. cbn [andb].
  rewrite walk_lines_sections in Hl. apply Ok_inj in Hl. subst lines.
  rewrite !app_assoc, rev_app_distr.
  destruct Hvendor as [-> | ->]; reflexivity.
Qed.

Lemma walk_file_format_witness :
  no_newline "sw01" = true /\
  option_map is_walk_file
    (written_by "cisco" "c3850-48p" "sw01" (mkDateTime 2024 3 7 9 5 0))
  = Some true.
Proof.
  split; [reflexivity|].
  pose (w := initial_world (mkDateTime 2024 3 7 9 5 0) (fun _ => true)).
  pose (w' := snd (generate_walk_file "cisco" "c3850-48p" "out.walk" "sw01" w)).
  assert (Hrun : generate_walk_file "cisco" "c3850-48p" "out.walk" "sw01" w
                 = (Ok true, w')) by (vm_compute; reflexivity).
  destruct (walk_file_format "cisco" "c3850-48p" "out.walk" "sw01" w w'
              eq_refl Hrun) as (d & lines & _ & Hfiles & _ & _ & _ & Hformat).
  unfold written_by. fold w. rewrite Hrun, Hfiles. cbn [option_map].
  rewrite Hformat by (left; reflexivity). reflexivity.
Defined.

(** * Further properties of the script *)

(** ** The number of OIDs reported *)

Lemma filter_counted_rows (d : DeviceInfo) (l : list Z) :
  filter counted (flat_map (entry_rows d) l) = flat_map (entry_rows d) l.
Proof.
  apply forallb_filter_id, forallb_flat_map. intros i _.
  unfold entry_rows.
  destruct (i <=? ports d); [|destruct (i <=? ports d + len (uplinks d))];
    reflexivity.
Qed.

Lemma filter_counted_enterprise (vendor : string) (d : DeviceInfo) :
  filter counted (enterprise_lines vendor d) = enterprise_lines vendor d.
Proof.
  apply forallb_filter_id.
  unfold enterprise_lines, vendor_specific_mib.
  destruct (String.eqb vendor "cisco"); [reflexivity|].
  destruct (String.eqb vendor "juniper"); reflexivity.
Qed.

(** X1. The number that the report prints as [Total OIDs] counts every
    line but the five of the header and the two blank separators: seven
    system rows, the ifNumber row, five rows for each index of
    [1..total] and the vendor rows.  This holds for any descriptor, vendor
    key and host name. *)
Theorem total_oids_count (vendor hostname : string) (d : DeviceInfo)
    (date : DateTime) :
  exists lines,
    walk_lines vendor d hostname date = Ok lines /\
    count_oids lines =
      8 + 5 * Z.max 0 (ports d + len (uplinks d) + 1)
        + len (enterprise_lines vendor d) /\
    len lines = count_oids lines + 7.
Proof.
  eexists. split; [apply walk_lines_sections|].
  unfold count_oids. fold counted.
  assert (Hsys : filter counted (generate_system_mib d hostname)
                 = generate_system_mib d hostname) by reflexivity.
  assert (Hhead : filter counted (header_lines vendor d hostname date) = [])
    by reflexivity.
  rewrite !filter_app, Hhead, Hsys. cbn [filter counted].
  change (counted "") with false. cbn iota.
  change (counted (ifNumber_line (total_ifs d))) with true. cbn iota.
  rewrite filter_counted_rows, filter_counted_enterprise.
  unfold len. rewrite !length_app. cbn [List.length app].
  change (List.length (generate_system_mib d hostname)) with 7%nat.
  change (List.length (header_lines vendor d hostname date)) with 5%nat.
  rewrite (flat_map_constant_length _ 5) by apply entry_rows_length.
  rewrite range_length. unfold total_ifs, len. split; lia.
Qed.

(** ** The head of the walk *)

(** X2. Whatever the vendor key, the descriptor, the host name and the
    clock, the assembled walk starts with five lines that begin with [#],
    and its first line that does not is the sysDescr row with the
    description of the descriptor. *)
Theorem first_entry_is_sysDescr (vendor hostname : string) (d : DeviceInfo)
    (date : DateTime) :
  exists lines,
    walk_lines vendor d hostname date = Ok lines /\
    forallb is_comment (firstn 5 lines) = true /\
    find (fun l => negb (is_comment l)) lines =
      Some (".1.3.6.1.2.1.1.1.0 = STRING: " ++ description d) /\
    nth_error lines 5 = Some (".1.3.6.1.2.1.1.1.0 = STRING: " ++ description d).
Proof.
  eexists. split; [apply walk_lines_sections|]. repeat split.
Qed.

(** ** Descriptors without interfaces *)

(** X3. The port count is not checked: when [ports + len(uplinks) + 1] is
    zero or negative the loop does not run, and the section is the ifNumber
    line alone, with that number; there is no management interface then,
    and no exception. *)
Theorem interface_mib_without_rows (d : DeviceInfo) :
  ports d + len (uplinks d) + 1 <= 0 ->
  generate_interface_mib d =
    Ok [".1.3.6.1.2.1.2.1.0 = INTEGER: "
          ++ str_int (ports d + len (uplinks d) + 1)].
Proof.
  intros H. rewrite generate_interface_mib_rows.
  unfold total_ifs. now rewrite range_empty by lia.
Qed.

Lemma interface_mib_without_rows_witness :
  ports (mkDevice "m" "d" (-3) false false ["u0"]) +
    len (uplinks (mkDevice "m" "d" (-3) false false ["u0"])) + 1 <= 0 /\
  generate_interface_mib (mkDevice "m" "d" (-3) false false ["u0"]) =
    Ok [".1.3.6.1.2.1.2.1.0 = INTEGER: -1"].
Proof.
  split; [vm_compute; discriminate|].
  apply (interface_mib_without_rows (mkDevice "m" "d" (-3) false false ["u0"])).
  vm_compute. discriminate.
Defined.

(** ** Reading the file back *)

Lemma app_unit_inj {A} (l1 l2 : list A) (a : A) :
  (l1 ++ [a] = l2 ++ [a])%list -> l1 = l2.
Proof. intros H. now apply app_inj_tail in H. Qed.

(** X4. The bytes written determine the lines: splitting the content of a
    file at its newlines gives the lines back (and an empty piece after the
    last newline), so two different non-empty lists of lines without
    newline are written as different files.  The empty list is written as
    the same single newline as a list of one blank line. *)
Theorem file_content_round_trip (lines lines' : list string) :
  lines <> [] -> forallb no_newline lines = true ->
  split_newlines (file_content lines) = (lines ++ [""])%list /\
  (lines' <> [] -> forallb no_newline lines' = true ->
   file_content lines = file_content lines' -> lines = lines') /\
  file_content [] = file_content [""].
Proof.
  intros Hne Hclean.
  assert (Hsplit : forall l, l <> [] -> forallb no_newline l = true ->
            split_newlines (file_content l) = (l ++ [""])%list).
  { intros [|x xs] Hl Hc; [congruence|]. now apply split_file_content. }
  split; [now apply Hsplit|]. split; [|reflexivity].
  intros Hne' Hclean' Heq.
  apply (f_equal split_newlines) in Heq.
  rewrite !Hsplit in Heq by assumption.
  now apply app_unit_inj in Heq.
Qed.

Lemma file_content_round_trip_witness :
  split_newlines (file_content ["# a"; ""; ".1.3 = INTEGER: 1"]) =
  ["# a"; ""; ".1.3 = INTEGER: 1"; ""].
Proof.
  apply (file_content_round_trip ["# a"; ""; ".1.3 = INTEGER: 1"] []);
    [discriminate|reflexivity].
Defined.

(** ** Runs of [main] *)

Lemma after_nothing (w : World) : after w [] [] = w.
Proof. destruct w. unfold after. cbn. now rewrite app_nil_r. Qed.

Lemma after_after (w : World) (out out' : list Output)
    (new new' : list (string * string)) :
  after (after w out new) out' new' = after w (out ++ out') (new' ++ new).
Proof. unfold after. cbn. now rewrite !app_assoc. Qed.

(** A loop whose body only prints prints the bodies' lines in order. *)
Lemma for_each_io_prints {A} (f : A -> list Output) (body : A -> IO unit)
    (xs : list A) :
  (forall x w, body x w = (Ok tt, after w (f x) [])) ->
  forall w, for_each_io xs body w = (Ok tt, after w (flat_map f xs) []).
Proof.
  intros Hbody. induction xs as [|x xs IH]; intros w; cbn [for_each_io flat_map].
  - unfold ret. now rewrite after_nothing.
  - unfold bind. rewrite Hbody, IH, after_after. reflexivity.
Qed.

Lemma flat_map_singleton {A B} (g : A -> B) (l : list A) :
  flat_map (fun x => [g x]) l = map g l.
Proof. induction l as [|x l IH]; cbn; [reflexivity|now rewrite IH]. Qed.

Lemma print_after (text : string) (w : World) :
  print text w = (Ok tt, after w [Print text] []).
Proof. reflexivity. Qed.

Lemma list_devices_prints (w : World) :
  list_devices w = (Ok tt, after w listing []).
Proof.
  unfold list_devices, listing, bind. rewrite print_after.
  rewrite (for_each_io_prints vendor_block).
  - now rewrite after_after.
  - intros [vendor models] w0. unfold vendor_block, bind.
    rewrite print_after.
    rewrite (for_each_io_prints (fun e => [model_line e])).
    + rewrite print_after, !after_after, flat_map_singleton.
      reflexivity.
    + intros [model_key info] w1. apply print_after.
Qed.

Lemma walk_lines_assembled (vendor hostname : string) (d : DeviceInfo)
    (date : DateTime) :
  walk_lines vendor d hostname date = Ok (assembled_lines vendor d hostname date).
Proof. apply walk_lines_sections. Qed.

(** Every run of [main], case by case. *)
Lemma main_run (args : Args) (w : World) :
  let vendor := get_arg (arg_vendor args) in
  let model_key := get_arg (arg_model args) in
  let output_file := get_arg (arg_output args) in
  main args w =
  if arg_list args then (Ok 0, after w listing [])
  else if options_given args then
    match dict_get DEVICE_TEMPLATES vendor with
    | None => (Ok 1, after w (vendor_error vendor) [])
    | Some models =>
        match dict_get models model_key with
        | None => (Ok 1, after w (model_error vendor model_key models) [])
        | Some d =>
            let lines := assembled_lines vendor d (arg_hostname args) (now w) in
            if writable w output_file
            then (Ok 0, after w (summary vendor model_key d
                                   ++ report output_file lines)
                                [(output_file, file_content lines)])
            else (Raise OSError, after w (summary vendor model_key d) [])
        end
    end
  else (Ok 1, after w [PrintHelp] []).
Proof.
  intros vendor model_key output_file. unfold main, options_given.
  destruct (arg_list args).
  - unfold bind. now rewrite list_devices_prints.
  - destruct (falsy (arg_vendor args) || falsy (arg_model args)
              || falsy (arg_output args)); cbn [negb]; [reflexivity|].
    fold vendor model_key output_file. unfold bind.
    destruct (dict_get DEVICE_TEMPLATES vendor) as [models|] eqn:Hv.
    + destruct (dict_get models model_key) as [d|] eqn:Hm.
      * rewrite (generate_walk_file_known _ _ _ _ w models d _ Hv Hm
                   (walk_lines_assembled _ _ _ _)).
        now destruct (writable w output_file).
      * apply dict_contains_get in Hm.
        now rewrite (generate_walk_file_unknown_model _ _ _ _ _ models Hv Hm).
    + apply dict_contains_get in Hv.
      now rewrite (generate_walk_file_unknown_vendor _ _ _ _ _ Hv).
Qed.





(** ** The listing *)

Section SortedItems.

Context {V : Type}.

Lemma insert_sorted_perm (kv : string * V) (l : list (string * V)) :
  Permutation (insert_sorted kv l) (kv :: l).
Proof.
  induction l as [|kv' l IH]; cbn [insert_sorted]; [reflexivity|].
  destruct (String.leb (fst kv) (fst kv')); [reflexivity|].
  rewrite IH. apply perm_swap.
Qed.

Lemma sorted_items_perm (d : dict V) : Permutation (sorted_items d) d.
Proof.
  unfold sorted_items. induction d as [|kv d IH]; cbn [fold_right];
    [reflexivity|].
  rewrite insert_sorted_perm. now apply perm_skip.
Qed.

Lemma insert_sorted_head (a kv : string * V) (l : list (string * V)) :
  String.leb (fst a) (fst kv) = true ->
  HdRel (fun x y => String.leb (fst x) (fst y) = true) a l ->
  HdRel (fun x y => String.leb (fst x) (fst y) = true) a (insert_sorted kv l).
Proof.
  intros Ha Hl. destruct l as [|kv' l]; cbn [insert_sorted].
  - now constructor.
  - destruct (String.leb (fst kv) (fst kv')); constructor; [assumption|].
    now inversion Hl.
Qed.

Lemma insert_sorted_ascend (kv : string * V) (l : list (string * V)) :
  keys_ascend l -> keys_ascend (insert_sorted kv l).
Proof.
  unfold keys_ascend. induction l as [|kv' l IH]; intros Hl;
    cbn [insert_sorted].
  - repeat constructor.
  - destruct (String.leb (fst kv) (fst kv')) eqn:Hle.
    + constructor; [assumption|now constructor].
    + inversion Hl as [|? ? Hl' Hhd]; subst. constructor; [now apply IH|].
      apply insert_sorted_head; [|assumption].
      destruct (String.leb_total (fst kv) (fst kv')); congruence.
Qed.

Lemma sorted_items_ascend (d : dict V) : keys_ascend (sorted_items d).
Proof.
  unfold sorted_items. induction d as [|kv d IH]; cbn [fold_right].
  - constructor.
  - now apply insert_sorted_ascend.
Qed.

End SortedItems.

(** X8. [list_devices] prints the title and then one block for each
    vendor of the catalog: the vendor key in upper case, one line for each
    of its models (the key padded to 20 columns, the model name and the
    port count) and an empty line.  Every vendor and every model appears
    once, the vendors in ascending order of their keys and the models of a
    vendor in ascending order of theirs.  It writes no file and does not
    raise, and [main] with [--list] does just this and exits with 0,
    whatever the other options are. *)
Theorem list_devices_output (w : World) :
  list_devices w =
    (Ok tt,
     mkWorld (now w) (writable w)
       (stdout w ++
          Print (LF ++ "=== Available Device Templates ===" ++ LF)
            :: flat_map vendor_block (sorted_items DEVICE_TEMPLATES))
       (files w)) /\
  Permutation (sorted_items DEVICE_TEMPLATES) DEVICE_TEMPLATES /\
  keys_ascend (sorted_items DEVICE_TEMPLATES) /\
  (forall models : dict DeviceInfo,
     Permutation (sorted_items models) models /\
     keys_ascend (sorted_items models)) /\
  (forall args, arg_list args = true ->
     main args w =
       (Ok 0,
        mkWorld (now w) (writable w)
          (stdout w ++
             Print (LF ++ "=== Available Device Templates ===" ++ LF)
               :: flat_map vendor_block (sorted_items DEVICE_TEMPLATES))
          (files w))).
Proof.
  split; [apply list_devices_prints|].
  split; [apply sorted_items_perm|]. split; [apply sorted_items_ascend|].
  split.
  - intros models. split; [apply sorted_items_perm|apply sorted_items_ascend].
  - intros args Hl. rewrite main_run, Hl. reflexivity.
Qed.

Lemma list_devices_output_witness :
  main (mkArgs true (Some "acme") None None "niac-device-01")
       (initial_world (mkDateTime 2024 3 7 9 5 0) (fun _ => false)) =
  (Ok 0,
   mkWorld (mkDateTime 2024 3 7 9 5 0) (fun _ => false)
     (Print (LF ++ "=== Available Device Templates ===" ++ LF)
        :: flat_map vendor_block (sorted_items DEVICE_TEMPLATES))
     []).
Proof.
  apply (list_devices_output
           (initial_world (mkDateTime 2024 3 7 9 5 0) (fun _ => false))).
  reflexivity.
Defined.

(** The head of the listing. *)
Example listing_head :
  firstn 6 listing =
  [ Print (LF ++ "=== Available Device Templates ===" ++ LF);
    Print "ARISTA:";
    Print "  7050sx3-48yc12       - 7050SX3-48YC12 (48 ports)";
    Print "  7280sr3-48yc8        - 7280SR3-48YC8 (48 ports)";
    Print "";
    Print "ARUBA:" ] /\
  List.length listing = 41%nat.
Proof. vm_compute. split; reflexivity. Qed.

(** ** No OID twice *)

Lemma nodupb_NoDup (l : list string) : nodupb l = true -> NoDup l.
Proof.
  induction l as [|x l IH]; cbn [nodupb]; intros H; constructor;
    apply andb_true_iff in H; destruct H as [Hx Hl]; [|now apply IH].
  intros Hin. apply negb_true_iff in Hx.
  assert (existsb (String.eqb x) l = true); [|congruence].
  apply existsb_exists. exists x. split; [assumption|apply String.eqb_refl].
Qed.

Lemma range_NoDup (a b : Z) : NoDup (range a b).
Proof.
  unfold range. apply NoDup_map_NoDup_ForallPairs; [|apply seq_NoDup].
  intros x y _ _ H. lia.
Qed.

Lemma NoDup_flat_map {A B} (f : A -> list B) (l : list A) :
  NoDup l -> (forall x, NoDup (f x)) ->
  (forall x y b, In b (f x) -> In b (f y) -> x = y) ->
  NoDup (flat_map f l).
Proof.
  intros Hl Hf Hinj. induction Hl as [|x l Hx Hl IH]; cbn [flat_map];
    [constructor|].
  apply NoDup_app; [apply Hf|exact IH|].
  intros b Hb Hin. apply in_flat_map in Hin. destruct Hin as (y & Hy & Hby).
  rewrite (Hinj x y b Hb Hby) in Hx. contradiction.
Qed.

(** A block put inside a list that has none of its elements. *)
Lemma NoDup_insert_block {A} (l1 block l2 : list A) :
  NoDup (l1 ++ l2) -> NoDup block ->
  (forall a, In a block -> ~ In a (l1 ++ l2)) ->
  NoDup (l1 ++ block ++ l2).
Proof.
  intros H12 Hb Hdis.
  apply (Permutation_NoDup (l := block ++ l1 ++ l2)).
  - apply Permutation_app_swap_app.
  - now apply NoDup_app.
Qed.

Lemma row_oids_NoDup (i : Z) : NoDup (row_oids i).
Proof.
  unfold row_oids.
  repeat (constructor;
          [cbn [In]; intros H;
           repeat (destruct H as [H|H];
                   [apply (f_equal (String.get 19)) in H; discriminate H|]);
           exact H|]).
  constructor.
Qed.

Lemma row_oids_index (i j : Z) (oid : string) :
  In oid (row_oids i) -> In oid (row_oids j) -> i = j.
Proof.
  intros Hi Hj. apply str_int_inj.
  assert (Hdrop : forall k, In oid (row_oids k) -> string_drop 21 oid = str_int k).
  { intros k Hk. unfold row_oids in Hk. cbn [In] in Hk.
    repeat (destruct Hk as [<-|Hk]; [reflexivity|]). contradiction. }
  now rewrite <- (Hdrop i Hi), <- (Hdrop j Hj).
Qed.

Lemma row_oids_in_if_table (i : Z) (oid : string) :
  In oid (row_oids i) -> in_if_table oid = true.
Proof.
  unfold row_oids. cbn [In]. intros H.
  repeat (destruct H as [<-|H]; [reflexivity|]). contradiction.
Qed.

(** The OID of an entry is what stands before [" = "]. *)
Lemma oid_of_entry (oid rest : string) :
  string_forall is_oid_char oid = true ->
  oid_of (oid ++ " = " ++ rest) = oid.
Proof.
  intros H. unfold oid_of. now rewrite span_app.
Qed.

Lemma digit_is_oid_char (c : ascii) : is_digit c = true -> is_oid_char c = true.
Proof. intros H. unfold is_oid_char. now rewrite H. Qed.

Lemma entry_rows_oids (d : DeviceInfo) (i : Z) :
  0 <= i -> map oid_of (entry_rows d i) = row_oids i.
Proof.
  intros Hi. destruct (str_int_digits i Hi) as [Hd _].
  apply (string_forall_impl _ _ _ digit_is_oid_char) in Hd.
  assert (Hrow : forall column rest,
            string_forall is_oid_char column = true ->
            oid_of (column ++ str_int i ++ " = " ++ rest) = column ++ str_int i).
  { intros column rest Hc. rewrite <- append_assoc. apply oid_of_entry.
    now rewrite string_forall_app, Hc, Hd. }
  unfold entry_rows, row_oids.
  destruct (i <=? ports d); [|destruct (i <=? ports d + len (uplinks d))];
    cbn [map].
  - apply (f_equal2 cons);
      [exact (Hrow ".1.3.6.1.2.1.2.2.1.1." ("INTEGER: " ++ str_int i) eq_refl)|].
    apply (f_equal2 cons);
      [exact (Hrow ".1.3.6.1.2.1.2.2.1.2." ("STRING: GigabitEthernet1/0/" ++ str_int i) eq_refl)|].
    apply (f_equal2 cons);
      [exact (Hrow ".1.3.6.1.2.1.2.2.1.3." ("INTEGER: 6") eq_refl)|].
    apply (f_equal2 cons);
      [exact (Hrow ".1.3.6.1.2.1.2.2.1.5." ("Gauge32: 1000000000") eq_refl)|].
    apply (f_equal2 cons);
      [exact (Hrow ".1.3.6.1.2.1.2.2.1.8." ("INTEGER: 1") eq_refl)|].
    reflexivity.
  - apply (f_equal2 cons);
      [exact (Hrow ".1.3.6.1.2.1.2.2.1.1." ("INTEGER: " ++ str_int i) eq_refl)|].
    apply (f_equal2 cons);
      [exact (Hrow ".1.3.6.1.2.1.2.2.1.2." ("STRING: " ++ nth (Z.to_nat (i - ports d - 1)) (uplinks d) "") eq_refl)|].
    apply (f_equal2 cons);
      [exact (Hrow ".1.3.6.1.2.1.2.2.1.3." ("INTEGER: 6") eq_refl)|].
    apply (f_equal2 cons);
      [exact (Hrow ".1.3.6.1.2.1.2.2.1.5." ("Gauge32: 10000000000") eq_refl)|].
    apply (f_equal2 cons);
      [exact (Hrow ".1.3.6.1.2.1.2.2.1.8." ("INTEGER: 1") eq_refl)|].
    reflexivity.
  - apply (f_equal2 cons);
      [exact (Hrow ".1.3.6.1.2.1.2.2.1.1." ("INTEGER: " ++ str_int i) eq_refl)|].
    apply (f_equal2 cons);
      [exact (Hrow ".1.3.6.1.2.1.2.2.1.2." ("STRING: Vlan1") eq_refl)|].
    apply (f_equal2 cons);
      [exact (Hrow ".1.3.6.1.2.1.2.2.1.3." ("INTEGER: 53") eq_refl)|].
    apply (f_equal2 cons);
      [exact (Hrow ".1.3.6.1.2.1.2.2.1.5." ("Gauge32: 1000000000") eq_refl)|].
    apply (f_equal2 cons);
      [exact (Hrow ".1.3.6.1.2.1.2.2.1.8." ("INTEGER: 1") eq_refl)|].
    reflexivity.
Qed.

Lemma entry_shape (oid rest : string) :
  string_forall is_oid_char oid = true ->
  exists rest', oid ++ " = " ++ rest = oid_of (oid ++ " = " ++ rest) ++ " = " ++ rest'.
Proof. intros H. exists rest. now rewrite oid_of_entry. Qed.

Lemma entry_rows_shape (d : DeviceInfo) (i : Z) (l : string) :
  0 <= i -> In l (entry_rows d i) -> exists rest, l = oid_of l ++ " = " ++ rest.
Proof.
  intros Hi. destruct (str_int_digits i Hi) as [Hd _].
  apply (string_forall_impl _ _ _ digit_is_oid_char) in Hd.
  assert (Hrow : forall column rest,
            string_forall is_oid_char column = true ->
            exists rest',
              column ++ str_int i ++ " = " ++ rest =
              oid_of (column ++ str_int i ++ " = " ++ rest) ++ " = " ++ rest').
  { intros column rest Hc. rewrite <- append_assoc. apply entry_shape.
    now rewrite string_forall_app, Hc, Hd. }
  unfold entry_rows.
  destruct (i <=? ports d); [|destruct (i <=? ports d + len (uplinks d))];
    cbn [In]; intros H.
  - destruct H as [<-|[<-|[<-|[<-|[<-|[]]]]]].
    + exact (Hrow ".1.3.6.1.2.1.2.2.1.1." ("INTEGER: " ++ str_int i) eq_refl).
    + exact (Hrow ".1.3.6.1.2.1.2.2.1.2."
               ("STRING: GigabitEthernet1/0/" ++ str_int i) eq_refl).
    + exact (Hrow ".1.3.6.1.2.1.2.2.1.3." "INTEGER: 6" eq_refl).
    + exact (Hrow ".1.3.6.1.2.1.2.2.1.5." "Gauge32: 1000000000" eq_refl).
    + exact (Hrow ".1.3.6.1.2.1.2.2.1.8." "INTEGER: 1" eq_refl).
  - destruct H as [<-|[<-|[<-|[<-|[<-|[]]]]]].
    + exact (Hrow ".1.3.6.1.2.1.2.2.1.1." ("INTEGER: " ++ str_int i) eq_refl).
    + exact (Hrow ".1.3.6.1.2.1.2.2.1.2."
               ("STRING: " ++ nth (Z.to_nat (i - ports d - 1)) (uplinks d) "")
               eq_refl).
    + exact (Hrow ".1.3.6.1.2.1.2.2.1.3." "INTEGER: 6" eq_refl).
    + exact (Hrow ".1.3.6.1.2.1.2.2.1.5." "Gauge32: 10000000000" eq_refl).
    + exact (Hrow ".1.3.6.1.2.1.2.2.1.8." "INTEGER: 1" eq_refl).
  - destruct H as [<-|[<-|[<-|[<-|[<-|[]]]]]].
    + exact (Hrow ".1.3.6.1.2.1.2.2.1.1." ("INTEGER: " ++ str_int i) eq_refl).
    + exact (Hrow ".1.3.6.1.2.1.2.2.1.2." "STRING: Vlan1" eq_refl).
    + exact (Hrow ".1.3.6.1.2.1.2.2.1.3." "INTEGER: 53" eq_refl).
    + exact (Hrow ".1.3.6.1.2.1.2.2.1.5." "Gauge32: 1000000000" eq_refl).
    + exact (Hrow ".1.3.6.1.2.1.2.2.1.8." "INTEGER: 1" eq_refl).
Qed.

Lemma rows_oids (d : DeviceInfo) (l : list Z) :
  (forall i, In i l -> 0 <= i) ->
  map oid_of (flat_map (entry_rows d) l) = flat_map row_oids l.
Proof.
  induction l as [|i l IH]; intros H; cbn [flat_map map]; [reflexivity|].
  rewrite map_app, entry_rows_oids by (apply H; now left).
  f_equal. apply IH. intros j Hj. apply H. now right.
Qed.

(** The lines that are counted as OIDs: all but the header and the blank
    separators. *)
Lemma counted_lines (vendor hostname : string) (d : DeviceInfo)
    (date : DateTime) :
  filter counted (assembled_lines vendor d hostname date) =
  (generate_system_mib d hostname
     ++ [ifNumber_line (total_ifs d)]
     ++ flat_map (entry_rows d) (range 1 (total_ifs d + 1))
     ++ enterprise_lines vendor d)%list.
Proof.
  unfold assembled_lines.
  assert (Hsys : filter counted (generate_system_mib d hostname)
                 = generate_system_mib d hostname) by reflexivity.
  assert (Hhead : filter counted (header_lines vendor d hostname date) = [])
    by reflexivity.
  rewrite !filter_app, Hhead, Hsys. cbn [filter counted].
  change (counted "") with false. cbn iota.
  change (counted (ifNumber_line (total_ifs d))) with true. cbn iota.
  now rewrite filter_counted_rows, filter_counted_enterprise.
Qed.

(** X9. No OID occurs twice in a walk: the OIDs of the lines that are not
    header comments or blank separators (the text of each such line before
    its [" = "]) are pairwise different, for any descriptor, vendor key and
    host name.  So a consumer that loads the file into a table keyed by OID
    loses no row. *)
Theorem walk_oids_distinct (vendor hostname : string) (d : DeviceInfo)
    (date : DateTime) :
  exists lines,
    walk_lines vendor d hostname date = Ok lines /\
    NoDup (map oid_of (filter counted lines)) /\
    forall l, In l (filter counted lines) ->
      exists rest, l = oid_of l ++ " = " ++ rest.
Proof.
  exists (assembled_lines vendor d hostname date).
  split; [apply walk_lines_assembled|].
  rewrite counted_lines.
  assert (Hpos : forall i, In i (range 1 (total_ifs d + 1)) -> 0 <= i).
  { intros i Hi. apply range_In in Hi. lia. }
  split.
  - rewrite !map_app, rows_oids by exact Hpos.
    rewrite app_assoc.
    apply NoDup_insert_block.
    + apply nodupb_NoDup.
      unfold enterprise_lines, vendor_specific_mib.
      destruct (String.eqb vendor "cisco"); [reflexivity|].
      destruct (String.eqb vendor "juniper"); reflexivity.
    + apply NoDup_flat_map;
        [apply range_NoDup|apply row_oids_NoDup|apply row_oids_index].
    + intros oid Hin Hout. apply in_flat_map in Hin.
      destruct Hin as (i & _ & Hin). apply row_oids_in_if_table in Hin.
      assert (Hall : forallb (fun o => negb (in_if_table o))
                       ((map oid_of (generate_system_mib d hostname)
                           ++ map oid_of [ifNumber_line (total_ifs d)])
                          ++ map oid_of (enterprise_lines vendor d)) = true).
      { unfold enterprise_lines, vendor_specific_mib.
        destruct (String.eqb vendor "cisco"); [reflexivity|].
        destruct (String.eqb vendor "juniper"); reflexivity. }
      rewrite forallb_forall in Hall. specialize (Hall oid Hout).
      now rewrite Hin in Hall.
  - intros l Hl. apply in_app_or in Hl. destruct Hl as [Hl|Hl].
    { unfold generate_system_mib, append in Hl. cbn [app In] in Hl.
      destruct Hl as [<-|[<-|[<-|[<-|[<-|[<-|[<-|[]]]]]]]];
        eexists; reflexivity. }
    apply in_app_or in Hl. destruct Hl as [Hl|Hl].
    { destruct Hl as [<-|[]]. eexists; reflexivity. }
    apply in_app_or in Hl. destruct Hl as [Hl|Hl].
    { apply in_flat_map in Hl. destruct Hl as (i & Hi & Hl).
      apply (entry_rows_shape d i); [now apply Hpos|assumption]. }
    unfold enterprise_lines, vendor_specific_mib, extend,
      generate_cisco_enterprise_mib, generate_juniper_enterprise_mib, append
      in Hl.
    destruct (String.eqb vendor "cisco"); [|destruct (String.eqb vendor "juniper")];
      cbn [app In] in Hl.
    + destruct Hl as [<-|[<-|[<-|[<-|[<-|[<-|[<-|[<-|[]]]]]]]]];
        eexists; reflexivity.
    + destruct Hl as [<-|[<-|[]]]; eexists; reflexivity.
    + contradiction.
Qed.

(** ** The end of the file *)

Lemma join_snoc (sep x : string) (l : list string) :
  l <> [] -> join sep (l ++ [x]) = join sep l ++ sep ++ x.
Proof.
  unfold join. induction l as [|y l IH]; [congruence|]. intros _.
  destruct l as [|z l]; [reflexivity|].
  change (String.concat sep ((y :: z :: l) ++ [x]))
    with (y ++ sep ++ String.concat sep ((z :: l) ++ [x])).
  rewrite IH by discriminate.
  change (String.concat sep (y :: z :: l))
    with (y ++ sep ++ String.concat sep (z :: l)).
  now rewrite !append_assoc.
Qed.

Lemma file_content_snoc (x : string) (l : list string) :
  l <> [] -> file_content (l ++ [x]) = (join LF l ++ LF) ++ x ++ LF.
Proof.
  intros H. unfold file_content. rewrite join_snoc by assumption.
  now rewrite !append_assoc.
Qed.

Lemma assembled_lines_split (vendor hostname : string) (d : DeviceInfo)
    (date : DateTime) :
  exists before,
    before <> [] /\
    assembled_lines vendor d hostname date =
      ((before ++ [""]) ++ enterprise_lines vendor d)%list.
Proof.
  exists (header_lines vendor d hostname date
            ++ generate_system_mib d hostname
            ++ [""]
            ++ (ifNumber_line (total_ifs d)
                  :: flat_map (entry_rows d) (range 1 (total_ifs d + 1))))%list.
  split; [discriminate|].
  unfold assembled_lines. now rewrite <- !app_assoc.
Qed.

(** X10. How a written file ends.  For [cisco] and [juniper] the last
    line is the last vendor row, followed by the newline that ends the
    file.  For every other vendor of the catalog the last assembled line is
    the blank separator after the interface section, so the file ends with
    two newlines. *)
Theorem walk_file_ending
    (vendor model_key output_file hostname : string) (w w' : World) :
  generate_walk_file vendor model_key output_file hostname w = (Ok true, w') ->
  exists content,
    files w' = (output_file, content) :: files w /\
    (vendor = "cisco" -> exists body,
       content = body ++ ".1.3.6.1.4.1.9.9.48.1.1.1.6.1 = INTEGER: 12582912000"
                      ++ LF) /\
    (vendor = "juniper" -> exists body,
       content = body ++ ".1.3.6.1.4.1.2636.3.1.3.0 = STRING: SNXXXXXXXX"
                      ++ LF) /\
    (vendor <> "cisco" -> vendor <> "juniper" -> exists body,
       content = body ++ LF ++ LF).
Proof.
  intros Hrun.
  destruct (generate_walk_file_success _ _ _ _ _ _ Hrun)
    as (models & d & lines & Hv & Hm & Hl & Hw & ->).
  rewrite walk_lines_assembled in Hl. apply Ok_inj in Hl. subst lines.
  eexists. split; [reflexivity|].
  destruct (assembled_lines_split vendor hostname d (now w))
    as (before & Hne & ->).
  assert (Hne' : forall l : list string, ((before ++ [""]) ++ l)%list <> []).
  { intros l H. apply app_eq_nil in H. destruct H as [H _].
    apply app_eq_nil in H. now destruct H. }
  split; [|split].
  - intros ->. eexists.
    change (enterprise_lines "cisco" d)
      with (removelast (enterprise_lines "cisco" d)
              ++ [".1.3.6.1.4.1.9.9.48.1.1.1.6.1 = INTEGER: 12582912000"])%list.
    rewrite app_assoc, file_content_snoc by apply Hne'. reflexivity.
  - intros ->. eexists.
    change (enterprise_lines "juniper" d)
      with (removelast (enterprise_lines "juniper" d)
              ++ [".1.3.6.1.4.1.2636.3.1.3.0 = STRING: SNXXXXXXXX"])%list.
    rewrite app_assoc, file_content_snoc by apply Hne'. reflexivity.
  - intros Hc Hj. apply String.eqb_neq in Hc, Hj.
    unfold enterprise_lines, vendor_specific_mib. rewrite Hc, Hj, app_nil_r.
    rewrite file_content_snoc by assumption.
    exists (join LF before). now rewrite append_assoc.
Qed.

Lemma walk_file_ending_witness :
  exists body,
    written_by "aruba" "cx6300-48g" "niac-device-01" (mkDateTime 2024 3 7 9 5 0)
    = Some (body ++ LF ++ LF).
Proof.
  pose (w := initial_world (mkDateTime 2024 3 7 9 5 0) (fun _ => true)).
  pose (w' := snd (generate_walk_file "aruba" "cx6300-48g" "out.walk"
                     "niac-device-01" w)).
  assert (Hrun : generate_walk_file "aruba" "cx6300-48g" "out.walk"
                   "niac-device-01" w = (Ok true, w'))
    by (vm_compute; reflexivity).
  destruct (walk_file_ending "aruba" "cx6300-48g" "out.walk" "niac-device-01"
              w w' Hrun) as (content & Hfiles & _ & _ & Hother).
  destruct Hother as [body ->]; [discriminate|discriminate|].
  exists body. unfold written_by. fold w. now rewrite Hrun, Hfiles.
Defined.

(** ** What is listed can be generated *)







(** ** Where the host name goes *)

(** X12. The host name is copied into two lines of the walk, the fourth
    line of the header and the sysName row (the tenth line), and into no
    other: walks for two host names, all else equal, agree on every other
    line. *)
Theorem hostname_lines (vendor : string) (d : DeviceInfo) (date : DateTime)
    (hostname hostname' : string) :
  exists head middle rest,
    List.length head = 3%nat /\ List.length middle = 5%nat /\
    walk_lines vendor d hostname date =
      Ok (head ++ ("# Hostname: " ++ hostname)%string
               :: middle ++ (".1.3.6.1.2.1.1.5.0 = STRING: " ++ hostname)%string
               :: rest)%list /\
    walk_lines vendor d hostname' date =
      Ok (head ++ ("# Hostname: " ++ hostname')%string
               :: middle ++ (".1.3.6.1.2.1.1.5.0 = STRING: " ++ hostname')%string
               :: rest)%list.
Proof.
  rewrite !walk_lines_sections.
  exists [ "# SNMP Walk File for " ++ title vendor ++ " " ++ model d;
           "# Generated by NiAC-Go walk file generator";
           "# Date: " ++ strftime date ].
  exists [ "#";
           ".1.3.6.1.2.1.1.1.0 = STRING: " ++ description d;
           ".1.3.6.1.2.1.1.2.0 = OID: .1.3.6.1.4.1.9.1.1719";
           ".1.3.6.1.2.1.1.3.0 = Timeticks: (123456789) 14 days, 6:56:07.89";
           ".1.3.6.1.2.1.1.4.0 = STRING: Network Administrator" ].
  eexists. repeat split.
Qed.
